(** * OpenFlexure MCP adapter: a shallow embedding of [openflexure-server.py]

    The adapter is a thin layer between an orchestrating agent and the
    OpenFlexure microscope client.  Every operation is a short sequence of
    calls on the client object followed by text formatting.  The embedding
    keeps the two apart:

    - the operations are programs in a small free monad [Prog] whose only
      effects are the calls the source makes on [microscope] and [ctx];
    - the client and the device behind it are an environment [Env] that
      answers each call with a value or with a raised exception;
    - the server object [mcp] and the extension objects of the client's
      registry are records of what the source reads from them, each
      operation giving a value or raising as its class has it.

    Python values are modelled as the code uses them: [int] as [Z], [str] as
    [string] (a byte string holding UTF-8), [dict] with string keys as an
    insertion-ordered association list, [float] as IEEE-754 binary64 through
    [SpecFloat]. *)

From Stdlib Require Import ZArith List String Ascii Bool Lia.
From Stdlib Require Import DecimalString.
From Stdlib Require Import Floats.SpecFloat.
Import ListNotations.

Local Open Scope string_scope.
Local Open Scope Z_scope.

Set Implicit Arguments.

(* ================================================================= *)
(** ** Strings *)

Definition nl : string := String (ascii_of_nat 10) EmptyString.

(** [sep.join(xs)] *)
Fixpoint join (sep : string) (xs : list string) : string :=
  match xs with
  | [] => ""
  | [x] => x
  | x :: rest => x ++ sep ++ join sep rest
  end.

(** The text of a triple-quoted literal, given line by line. *)
Definition lines (ls : list string) : string := join nl ls.

(** [str(n)] for an [int]. *)
Definition str_of_int (n : Z) : string := NilZero.string_of_int (Z.to_int n).

(** [c in s] for a one-character [c]. *)
Fixpoint has_char (c : ascii) (s : string) : bool :=
  match s with
  | EmptyString => false
  | String a rest => Ascii.eqb a c || has_char c rest
  end.

Definition hex_digit (n : nat) : ascii :=
  match n with
  | 0%nat => "0" | 1%nat => "1" | 2%nat => "2" | 3%nat => "3"
  | 4%nat => "4" | 5%nat => "5" | 6%nat => "6" | 7%nat => "7"
  | 8%nat => "8" | 9%nat => "9" | 10%nat => "a" | 11%nat => "b"
  | 12%nat => "c" | 13%nat => "d" | 14%nat => "e" | _ => "f"
  end%char.

Definition backslash : ascii := ascii_of_nat 92.
Definition squote : ascii := ascii_of_nat 39.
Definition dquote : ascii := ascii_of_nat 34.

(** One character of [repr(s)] with the chosen quote [q].  Bytes from 128 up
    belong to the UTF-8 encoding of a non-ASCII character and are kept, as
    Python keeps printable non-ASCII characters. *)
Definition repr_char (q : ascii) (c : ascii) : string :=
  let n := nat_of_ascii c in
  if Ascii.eqb c q || Ascii.eqb c backslash then String backslash (String c "")
  else if Nat.eqb n 9 then String backslash "t"
  else if Nat.eqb n 10 then String backslash "n"
  else if Nat.eqb n 13 then String backslash "r"
  else if Nat.ltb n 32 || Nat.eqb n 127 then
    String backslash (String "x" (String (hex_digit (n / 16)) (String (hex_digit (n mod 16)) "")))
  else String c "".

Fixpoint repr_chars (q : ascii) (s : string) : string :=
  match s with
  | EmptyString => ""
  | String c rest => repr_char q c ++ repr_chars q rest
  end.

(** [repr(s)] for a [str]: single quotes, unless the text has a single quote
    and no double quote. *)
Definition repr_str (s : string) : string :=
  let q := if has_char squote s && negb (has_char dquote s) then dquote else squote in
  String q (repr_chars q s ++ String q "").

(** [s.lower()].  Only ASCII letters are folded; no non-ASCII character
    lowers to a letter of "get" or "post", so the comparisons the adapter
    makes on the result agree with Python's. *)
Definition lower_char (c : ascii) : ascii :=
  let n := nat_of_ascii c in
  if Nat.leb 65 n && Nat.leb n 90 then ascii_of_nat (n + 32) else c.

Fixpoint lower (s : string) : string :=
  match s with
  | EmptyString => ""
  | String c rest => String (lower_char c) (lower rest)
  end.

(* ================================================================= *)
(** ** Exceptions *)

(** Instances of [Exception], the class that [except Exception] catches.
    [DeviceError] stands for whatever the client library raises on a
    transport or device failure, with its class name and message.  Signals
    outside [Exception] (a keyboard interrupt, interpreter exit) are not
    failures of a call and are not modelled. *)
Inductive Exn : Type :=
| KeyError (key : string)
| AttributeError (msg : string)
| ZeroDivisionError (msg : string)
| OverflowError (msg : string)
| ValueError (msg : string)
| DeviceError (cls msg : string).

(** [str(e)] *)
Definition exn_str (e : Exn) : string :=
  match e with
  | KeyError k => repr_str k
  | AttributeError m | ZeroDivisionError m | OverflowError m | ValueError m => m
  | DeviceError _ m => m
  end.

Definition result (A : Type) : Type := (Exn + A)%type.

(* ================================================================= *)
(** ** Dictionaries with string keys *)

Module Dict.

Definition t (V : Type) : Type := list (string * V).

(** [d.get(k)] *)
Fixpoint get {V} (k : string) (d : t V) : option V :=
  match d with
  | [] => None
  | (k', v) :: rest => if String.eqb k k' then Some v else get k rest
  end.

(** [d.get(k, default)] *)
Definition get_default {V} (k : string) (default : V) (d : t V) : V :=
  match get k d with Some v => v | None => default end.

(** [d[k]] *)
Definition getitem {V} (k : string) (d : t V) : result V :=
  match get k d with Some v => inr v | None => inl (KeyError k) end.

(** [d[k] = v]: an existing key keeps its place, a new one goes last. *)
Fixpoint set {V} (k : string) (v : V) (d : t V) : t V :=
  match d with
  | [] => [(k, v)]
  | (k', v') :: rest =>
      if String.eqb k k' then (k', v) :: rest else (k', v') :: set k v rest
  end.

(** [k in d] *)
Definition mem {V} (k : string) (d : t V) : bool :=
  match get k d with Some _ => true | None => false end.

(** [list(d.keys())] *)
Definition keys {V} (d : t V) : list string := map fst d.

(** [d.copy()]: values are immutable here, a copy is the value itself. *)
Definition copy {V} (d : t V) : t V := d.

End Dict.

(* ================================================================= *)
(** ** Values received from the device *)

(** Decoded JSON, plus [PyOpaque] for any other object (a float, a numpy
    array): the adapter takes [str] or [repr] of it, and an attribute it
    lacks is reported under the name of its class. *)
#[warnings="-register-all"]
Inductive PyVal : Type :=
| PyNone
| PyBool (b : bool)
| PyInt (n : Z)
| PyStr (s : string)
| PyList (items : list PyVal)
| PyDict (items : list (string * PyVal))
| PyOpaque (class_name shown_str shown_repr : string).

Fixpoint py_repr (v : PyVal) : string :=
  match v with
  | PyNone => "None"
  | PyBool true => "True"
  | PyBool false => "False"
  | PyInt n => str_of_int n
  | PyStr s => repr_str s
  | PyList items => "[" ++ join ", " (map py_repr items) ++ "]"
  | PyDict items =>
      "{" ++ join ", " (map (fun kv => repr_str (fst kv) ++ ": " ++ py_repr (snd kv)) items) ++ "}"
  | PyOpaque _ _ r => r
  end.

(** [str(v)], which is what an f-string field shows. *)
Definition py_str (v : PyVal) : string :=
  match v with
  | PyStr s => s
  | PyOpaque _ s _ => s
  | _ => py_repr v
  end.

(** [type(v).__name__] *)
Definition type_name (v : PyVal) : string :=
  match v with
  | PyNone => "NoneType"
  | PyBool _ => "bool"
  | PyInt _ => "int"
  | PyStr _ => "str"
  | PyList _ => "list"
  | PyDict _ => "dict"
  | PyOpaque class_name _ _ => class_name
  end.

Definition no_attribute (ty attr : string) : Exn :=
  AttributeError ("'" ++ ty ++ "' object has no attribute '" ++ attr ++ "'").

(** [v.get(k, default)] *)
Definition py_get (v : PyVal) (k : string) (default : PyVal) : result PyVal :=
  match v with
  | PyDict items => inr (Dict.get_default k default items)
  | _ => inl (no_attribute (type_name v) "get")
  end.

(** A stage position as the client reports it: axis name to step count. *)
Definition Position : Type := Dict.t Z.

Definition repr_position (p : Position) : string :=
  "{" ++ join ", " (map (fun kv => repr_str (fst kv) ++ ": " ++ str_of_int (snd kv)) p) ++ "}".

(** [repr] of a list of [int]. *)
Definition repr_int_list (zs : list Z) : string :=
  "[" ++ join ", " (map str_of_int zs) ++ "]".

(** [repr] of a list of [str]. *)
Definition repr_str_list (xs : list string) : string :=
  "[" ++ join ", " (map repr_str xs) ++ "]".

(* ================================================================= *)
(** ** Python numbers: [int] and binary64 [float] *)

Module Float.

Definition prec : Z := 53.
Definition emax : Z := 1024.

Definition t : Type := spec_float.

Definition is_infinite (f : t) : bool :=
  match f with S754_infinity _ => true | _ => false end.

(** [float(n)]: nearest double, ties to even; too large an [int] raises. *)
Definition of_int (n : Z) : result t :=
  let f := binary_normalize prec emax n 0 false in
  if is_infinite f then inl (OverflowError "int too large to convert to float")
  else inr f.

(** [a / b] on two [int]s: the quotient rounded once to the nearest
    double, whatever the size of [a] and [b]. *)
Definition int_truediv (a b : Z) : result t :=
  if b =? 0 then inl (ZeroDivisionError "division by zero")
  else
    let neg := xorb (a <? 0) (b <? 0) in
    if a =? 0 then inr (S754_zero neg)
    else
      let '(q, e, l) := SFdiv_core_binary prec emax (Z.abs a) 0 (Z.abs b) 0 in
      let f := binary_round_aux prec emax neg q e l in
      if is_infinite f
      then inl (OverflowError "integer division result too large for a float")
      else inr f.

Definition mul (x y : t) : t := SFmul prec emax x y.
Definition add (x y : t) : t := SFadd prec emax x y.

(** [int(f)]: the integer part, rounding toward zero. *)
Definition to_int (f : t) : result Z :=
  match f with
  | S754_zero _ => inr 0
  | S754_infinity _ => inl (OverflowError "cannot convert float infinity to integer")
  | S754_nan => inl (ValueError "cannot convert float NaN to integer")
  | S754_finite s m e =>
      let mag := if 0 <=? e then Z.pos m * 2 ^ e else Z.pos m / 2 ^ (- e) in
      inr (if s then - mag else mag)
  end.

(** Nearest integer to [n / d] for [0 <= n], [0 < d], ties to even. *)
Definition div_round_even (n d : Z) : Z :=
  let q := n / d in
  let r := n mod d in
  match 2 * r ?= d with
  | Lt => q
  | Gt => q + 1
  | Eq => if Z.even q then q else q + 1
  end.

Definition two_digits (n : Z) : string :=
  (if n <? 10 then "0" else "") ++ str_of_int n.

(** [format(f, ".2f")]: the exact binary value rounded to two decimals. *)
Definition format_2f (f : t) : string :=
  match f with
  | S754_zero s => (if s then "-" else "") ++ "0.00"
  | S754_infinity s => (if s then "-" else "") ++ "inf"
  | S754_nan => "nan"
  | S754_finite s m e =>
      let hundredths :=
        if 0 <=? e then 100 * Z.pos m * 2 ^ e
        else div_round_even (100 * Z.pos m) (2 ^ (- e)) in
      (if s then "-" else "") ++ str_of_int (hundredths / 100) ++ "." ++
      two_digits (hundredths mod 100)
  end.

End Float.

(** A number that is an [int] or a [float], as [z_step] is. *)
Inductive PyNum : Type :=
| NInt (n : Z)
| NFloat (f : Float.t).

(** [i * x] for an [int] [i]. *)
Definition int_mul (i : Z) (x : PyNum) : result PyNum :=
  match x with
  | NInt n => inr (NInt (i * n))
  | NFloat f =>
      match Float.of_int i with
      | inl e => inl e
      | inr fi => inr (NFloat (Float.mul fi f))
      end
  end.

(** [a + x] for an [int] [a]. *)
Definition int_add (a : Z) (x : PyNum) : result PyNum :=
  match x with
  | NInt n => inr (NInt (a + n))
  | NFloat f =>
      match Float.of_int a with
      | inl e => inl e
      | inr fa => inr (NFloat (Float.add fa f))
      end
  end.

(** [int(x)] *)
Definition py_int (x : PyNum) : result Z :=
  match x with
  | NInt n => inr n
  | NFloat f => Float.to_int f
  end.

(** [format(x, ".2f")] *)
Definition num_format_2f (x : PyNum) : result string :=
  match x with
  | NInt n =>
      match Float.of_int n with
      | inl _ => inl (OverflowError "int too large to convert to float")
      | inr f => inr (Float.format_2f f)
      end
  | NFloat f => inr (Float.format_2f f)
  end.

(* ================================================================= *)
(** ** The calls the adapter makes, and programs over them *)

(** A callable endpoint of an extension, as found in the registry. *)
Record Link : Type := { href : string }.

(** An extension as the client library hands it out.  The adapter applies
    four operations to it; whether its class supports each of them, and
    what it answers, is the library's.  None contacts the device. *)
Module Ext.

Record t : Type := {
  contains : string -> result bool;           (* link_name in ext *)
  getitem : string -> result Link;            (* ext[link_name] *)
  keys : result (list string);                (* list(ext.keys()) *)
  get : string -> result (option Link)        (* ext.get(link_name) *)
}.

(** An extension that is a plain [dict] of links. *)
Definition of_dict (links : Dict.t Link) : t :=
  {| contains := fun k => inr (Dict.mem k links);
     getitem := fun k => Dict.getitem k links;
     keys := inr (Dict.keys links);
     get := fun k => inr (Dict.get k links) |}.

(** An extension of a class that defines [__getitem__] and nothing else of
    the mapping protocol, as the class of the released client does.
    Indexing with a name that is not a link raises [KeyError] with the
    text [wording name].  The class has no [keys] and no [get].  It has
    no [__contains__] and no [__iter__] either, so that [name in ext]
    indexes the object with 0, 1, 2, ... until [IndexError]: the first of
    these lookups, of a link called 0, raises the [KeyError], which
    leaves the test. *)
Definition index_only (class_name : string) (wording : string -> string)
    (links : Dict.t Link) : t :=
  {| contains := fun _ => inl (KeyError (wording (str_of_int 0)));
     getitem := fun k =>
       match Dict.get k links with
       | Some link => inr link
       | None => inl (KeyError (wording k))
       end;
     keys := inl (no_attribute class_name "keys");
     get := fun _ => inl (no_attribute class_name "get") |}.

End Ext.

(** [microscope.extensions]: a [dict] from extension name to extension.
    It is an attribute of the client object, read without contacting the
    device. *)
Definition Registry : Type := Dict.t Ext.t.

(** What the adapter reads from the client object itself. *)
Record Microscope : Type := { extensions : Registry }.

(** The server object [mcp], of which the resource functions read one
    attribute: [current_context], followed down to the microscope handle
    of the lifespan context.  [None] is a class without that attribute. *)
Record FastMCP : Type := { current_context : option Microscope }.

(** [mcp.current_context.request_context.lifespan_context.microscope] *)
Definition context_microscope (server : FastMCP) : result Microscope :=
  match current_context server with
  | Some microscope => inr microscope
  | None => inl (no_attribute "FastMCP" "current_context")
  end.

(** A PIL image, of which the adapter uses the size. *)
Record PILImage : Type := { width : Z; height : Z }.

(** Calls that leave the adapter: on the microscope client, and on the
    request context [ctx]. *)
Inductive Cmd : Type :=
| GetPosition                                   (* microscope.position *)
| GetPositionArray                              (* microscope.get_position_array() *)
| Move (position : Position)                    (* microscope.move(position) *)
| MoveRel (position : Position)                 (* microscope.move_rel(position) *)
| GrabImage                                     (* microscope.grab_image() *)
| LinkGet (l : Link)                            (* link.get() *)
| LinkPostJson (l : Link) (payload : PyVal)     (* link.post_json(payload) *)
| CtxInfo (msg : string).                       (* ctx.info(msg) *)

(** The type of what each call returns. *)
Definition Ans (c : Cmd) : Type :=
  match c with
  | GetPosition => Position
  | GetPositionArray => PyVal
  | Move _ | MoveRel _ => unit
  | GrabImage => PILImage
  | LinkGet _ | LinkPostJson _ _ => PyVal
  | CtxInfo _ => unit
  end.

(** Programs: return, raise, or make a call and go on with its outcome. *)
Inductive Prog (A : Type) : Type :=
| Ret (a : A)
| Raise (e : Exn)
| Call (c : Cmd) (k : result (Ans c) -> Prog A).

Arguments Ret {A} a.
Arguments Raise {A} e.
Arguments Call {A} c k.

Fixpoint bind {A B} (p : Prog A) (f : A -> Prog B) : Prog B :=
  match p with
  | Ret a => f a
  | Raise e => Raise e
  | Call c k => Call c (fun r => bind (k r) f)
  end.

(** A call whose failure propagates. *)
Definition call (c : Cmd) : Prog (Ans c) :=
  Call c (fun r => match r with inl e => Raise e | inr a => Ret a end).

(** A pure computation that may raise. *)
Definition lift {A} (r : result A) : Prog A :=
  match r with inl e => Raise e | inr a => Ret a end.

(** [try: p  except Exception as e: h e] *)
Fixpoint try_except {A} (p : Prog A) (h : Exn -> Prog A) : Prog A :=
  match p with
  | Ret a => Ret a
  | Raise e => h e
  | Call c k => Call c (fun r => try_except (k r) h)
  end.

Declare Scope prog_scope.
Delimit Scope prog_scope with prog.
Notation "x <- p ;; q" := (bind p (fun x => q))
  (at level 61, p at next level, right associativity) : prog_scope.
Notation "p ;; q" := (bind p (fun _ => q))
  (at level 61, right associativity) : prog_scope.
Local Open Scope prog_scope.

(** [obj.attr] on a value that may be [None]. *)
Definition attr_of {A} (attr : string) (o : option A) : result A :=
  match o with
  | Some a => inr a
  | None => inl (no_attribute "NoneType" attr)
  end.

(* ================================================================= *)
(** ** The environment: client library, device and host *)

Record Env : Type := {
  state : Type;
  respond : forall c : Cmd, state -> result (Ans c) * state
}.

(** One execution: the calls made, in order, how it ended, and the state of
    the environment afterwards. *)
Record Run (A S : Type) : Type := {
  trace : list Cmd;
  outcome : result A;
  final : S
}.

(** The run that makes call [c] first and then goes on as [rest]. *)
Definition after_call {A S} (c : Cmd) (rest : Run A S) : Run A S :=
  {| trace := c :: trace rest; outcome := outcome rest; final := final rest |}.

Fixpoint run {A} (E : Env) (p : Prog A) (s : state E) : Run A (state E) :=
  match p with
  | Ret a => {| trace := []; outcome := inr a; final := s |}
  | Raise e => {| trace := []; outcome := inl e; final := s |}
  | Call c k =>
      let '(r, s') := respond E c s in
      after_call c (run E (k r) s')
  end.

(** The positions of the absolute moves in a trace. *)
Fixpoint moves (tr : list Cmd) : list Position :=
  match tr with
  | [] => []
  | Move p :: rest => p :: moves rest
  | _ :: rest => moves rest
  end.

(** The number of preview captures in a trace. *)
Fixpoint grabs (tr : list Cmd) : nat :=
  match tr with
  | [] => 0%nat
  | GrabImage :: rest => S (grabs rest)
  | _ :: rest => grabs rest
  end.
(* ================================================================= *)
(** ** Resource endpoints *)

Definition device_address : string := "192.168.100.124".

(** [mcp = FastMCP("OpenFlexure Microscope", lifespan=..., dependencies=...)]
    of line 29.  The class gives the context of a request through its
    method [get_context()]; it has no attribute [current_context]. *)
Definition mcp : FastMCP := {| current_context := None |}.

(** [microscope.extensions.get("org.openflexure.microscope").get("device-info").get()]:
    the first [.get] is the registry's, and leaves [None] for a missing
    extension; the second is the extension's; the third calls the link. *)
Definition fetch_device_info (microscope : Microscope) : Prog PyVal :=
  ext <- lift (attr_of "get" (Dict.get "org.openflexure.microscope" (extensions microscope))) ;;
  endpoint <- lift (Ext.get ext "device-info") ;;
  endpoint <- lift (attr_of "get" endpoint) ;;
  call (LinkGet endpoint).

(** [get_microscope_info].  The source reads the module's [mcp]; it is the
    parameter [server] here, as in the two resources after it. *)
Definition get_microscope_info (server : FastMCP) : Prog string :=
  microscope <- lift (context_microscope server) ;;
  let active := join ", " (Dict.keys (extensions microscope)) in
  try_except
    (device_info <- fetch_device_info microscope ;;
     device_id <- lift (py_get device_info "device_id" (PyStr "Unknown")) ;;
     name <- lift (py_get device_info "name" (PyStr "Unknown")) ;;
     version <- lift (py_get device_info "version" (PyStr "Unknown")) ;;
     board <- lift (py_get device_info "board" (PyStr "Unknown")) ;;
     Ret (lines [
       "";
       "        OpenFlexure Microscope Information:";
       "        ";
       "        Device ID: " ++ py_str device_id;
       "        Name: " ++ py_str name;
       "        Version: " ++ py_str version;
       "        Board: " ++ py_str board;
       "        ";
       "        Active Extensions:";
       "        " ++ active;
       "        "]))
    (fun e =>
     Ret (lines [
       "";
       "        OpenFlexure Microscope connected at: " ++ device_address;
       "        ";
       "        Active Extensions:";
       "        " ++ active;
       "        ";
       "        Error getting detailed info: " ++ exn_str e;
       "        "])).

(** [get_position] *)
Definition get_position (server : FastMCP) : Prog string :=
  microscope <- lift (context_microscope server) ;;
  position <- call GetPosition ;;
  position_array <- call GetPositionArray ;;
  Ret (lines [
    "";
    "    Current Stage Position:";
    "    ";
    "    Dictionary format:";
    "    X: " ++ str_of_int (Dict.get_default "x" 0 position) ++ " steps";
    "    Y: " ++ str_of_int (Dict.get_default "y" 0 position) ++ " steps";
    "    Z: " ++ str_of_int (Dict.get_default "z" 0 position) ++ " steps";
    "    ";
    "    Array format: " ++ py_str position_array;
    "    "]).

(* ================================================================= *)
(** ** Tool endpoints *)

(** [if v is not None: position[k] = v] *)
Definition set_if_given (k : string) (v : option Z) (position : Position) : Position :=
  match v with
  | Some n => Dict.set k n position
  | None => position
  end.

(** The command dictionary of [move_stage]: only the axes given. *)
Definition move_command (x y z : option Z) : Position :=
  set_if_given "z" z (set_if_given "y" y (set_if_given "x" x [])).

(** [not d] is true of the empty dictionary only. *)
Definition is_empty {V} (d : Dict.t V) : bool :=
  match d with [] => true | _ => false end.

(** [move_stage] *)
Definition move_stage (x y z : option Z) (relative : bool) : Prog string :=
  let position := move_command x y z in
  if is_empty position then
    Ret "No position specified. Please provide x, y, or z coordinates."
  else
    before_pos <- call GetPosition ;;
    let before_pos := Dict.copy before_pos in
    (if relative then call (MoveRel position) else call (Move position)) ;;
    after_pos <- call GetPosition ;;
    ax <- lift (Dict.getitem "x" after_pos) ;;
    bx <- lift (Dict.getitem "x" before_pos) ;;
    ay <- lift (Dict.getitem "y" after_pos) ;;
    byy <- lift (Dict.getitem "y" before_pos) ;;
    az <- lift (Dict.getitem "z" after_pos) ;;
    bz <- lift (Dict.getitem "z" before_pos) ;;
    Ret (lines [
      "";
      "    Stage moved successfully!";
      "    ";
      "    Before: " ++ repr_position before_pos;
      "    After: " ++ repr_position after_pos;
      "    Delta: X: " ++ str_of_int (ax - bx) ++ ", Y: " ++ str_of_int (ay - byy)
        ++ ", Z: " ++ str_of_int (az - bz);
      "    "]).

(** [call_extension] *)
Definition call_extension (microscope : Microscope) (extension_name link_name : string)
    (method : string) (payload : option PyVal) : Prog string :=
  let report (result : PyVal) : string :=
    lines [
      "";
      "        Extension call successful:";
      "        ";
      "        Extension: " ++ extension_name;
      "        Link: " ++ link_name;
      "        Method: " ++ method;
      "        ";
      "        Result:";
      "        " ++ py_str result;
      "        "] in
  if negb (Dict.mem extension_name (extensions microscope)) then
    Ret ("Extension '" ++ extension_name ++ "' not found. Available extensions: "
         ++ repr_str_list (Dict.keys (extensions microscope)))
  else
    ext <- lift (Dict.getitem extension_name (extensions microscope)) ;;
    found <- lift (Ext.contains ext link_name) ;;
    if negb found then
      ext <- lift (Dict.getitem extension_name (extensions microscope)) ;;
      links <- lift (Ext.keys ext) ;;
      Ret ("Link '" ++ link_name ++ "' not found in extension '" ++ extension_name
           ++ "'. Available links: " ++ repr_str_list links)
    else
      try_except
        (if (lower method =? "get")%string then
           ext <- lift (Dict.getitem extension_name (extensions microscope)) ;;
           link <- lift (Ext.getitem ext link_name) ;;
           result <- call (LinkGet link) ;;
           Ret (report result)
         else if (lower method =? "post")%string then
           let payload := match payload with None => PyDict [] | Some p => p end in
           ext <- lift (Dict.getitem extension_name (extensions microscope)) ;;
           link <- lift (Ext.getitem ext link_name) ;;
           result <- call (LinkPostJson link payload) ;;
           Ret (report result)
         else
           Ret ("Unknown method '" ++ method ++ "'. Please use 'get' or 'post'."))
        (fun e => Ret ("Error calling extension: " ++ exn_str e)).

(** One entry of [captured_positions]. *)
Module Capture.
Record t : Type := { index : Z; z : Z; image_size : Z * Z }.
End Capture.

(** [range(n)] *)
Definition py_range (n : Z) : list Z := map Z.of_nat (seq 0 (Z.to_nat n)).

(** [(end_z - start_z) / (steps - 1) if steps > 1 else 0] *)
Definition z_step_of (start_z end_z steps : Z) : result PyNum :=
  if 1 <? steps then
    match Float.int_truediv (end_z - start_z) (steps - 1) with
    | inl e => inl e
    | inr f => inr (NFloat f)
    end
  else inr (NInt 0).

(** [int(start_z + i * z_step)], the Z commanded at iteration [i]. *)
Definition target_z (start_z : Z) (z_step : PyNum) (i : Z) : result Z :=
  match int_mul i z_step with
  | inl e => inl e
  | inr offset =>
      match int_add start_z offset with
      | inl e => inl e
      | inr current_z => py_int current_z
      end
  end.

(** [f"Starting Z-stack acquisition from Z={start_z} to Z={end_z} with {steps} steps"] *)
Definition starting_info (start_z end_z steps : Z) : string :=
  "Starting Z-stack acquisition from Z=" ++ str_of_int start_z ++ " to Z="
  ++ str_of_int end_z ++ " with " ++ str_of_int steps ++ " steps".

(** [f"Capturing image {i+1}/{steps} at Z={actual_pos['z']}"] *)
Definition capturing_info (i steps actual_z : Z) : string :=
  "Capturing image " ++ str_of_int (i + 1) ++ "/" ++ str_of_int steps
  ++ " at Z=" ++ str_of_int actual_z.

(** The body of [for i in range(steps)], run over the indices [idxs]. *)
Fixpoint z_stack_loop (start_z steps : Z) (z_step : PyNum) (new_pos : Position)
    (idxs : list Z) (captured_positions : list Capture.t) : Prog (list Capture.t) :=
  match idxs with
  | [] => Ret captured_positions
  | i :: rest =>
      target <- lift (target_z start_z z_step i) ;;
      let current_pos := Dict.set "z" target (Dict.copy new_pos) in
      call (Move current_pos) ;;
      actual_pos <- call GetPosition ;;
      actual_z <- lift (Dict.getitem "z" actual_pos) ;;
      call (CtxInfo (capturing_info i steps actual_z)) ;;
      image <- call GrabImage ;;
      z_stack_loop start_z steps z_step new_pos rest
        (captured_positions ++
         [{| Capture.index := i + 1; Capture.z := actual_z;
             Capture.image_size := (width image, height image) |}])
  end.

(** [run_z_stack] *)
Definition run_z_stack (start_z end_z steps : Z) : Prog string :=
  z_step <- lift (z_step_of start_z end_z steps) ;;
  start_pos <- call GetPosition ;;
  let start_pos := Dict.copy start_pos in
  let new_pos := Dict.set "z" start_z (Dict.copy start_pos) in
  call (Move new_pos) ;;
  call (CtxInfo (starting_info start_z end_z steps)) ;;
  captured_positions <- z_stack_loop start_z steps z_step new_pos (py_range steps) [] ;;
  call (Move start_pos) ;;
  step_size <- lift (num_format_2f z_step) ;;
  current <- call GetPosition ;;
  Ret (lines [
    "";
    "    Z-stack acquisition completed!";
    "    ";
    "    Captured " ++ str_of_int (Z.of_nat (List.length captured_positions)) ++ " images";
    "    Z range: " ++ str_of_int start_z ++ " to " ++ str_of_int end_z;
    "    Step size: " ++ step_size;
    "    ";
    "    Images captured at Z positions:";
    "    " ++ repr_int_list (map Capture.z captured_positions);
    "    ";
    "    Current position: " ++ repr_position current;
    "    "]).

(* ================================================================= *)
(** ** A reference environment: an ideal stage *)

(** A stage that goes exactly where it is told, a camera that always
    delivers a 640 x 480 preview, links that answer with a fixed document,
    and a registry of plain dictionaries.  Its state is the stage
    position. *)
Module Ideal.

Definition apply_move (cmd : Position) (pos : Position) : Position :=
  fold_left (fun acc kv => Dict.set (fst kv) (snd kv) acc) cmd pos.

Definition apply_move_rel (cmd : Position) (pos : Position) : Position :=
  fold_left (fun acc kv => Dict.set (fst kv) (Dict.get_default (fst kv) 0 acc + snd kv) acc)
            cmd pos.

(** [s] moved right to the width [w]. *)
Definition pad_left (w : nat) (s : string) : string :=
  String.concat "" (repeat " " (w - String.length s)) ++ s.

(** [get_position_array()] of the client: [np.array([pos[k] for k in
    ["x", "y", "z"]])], which needs the three axes.  An integer array is
    shown with its entries at a common width. *)
Definition position_array (pos : Position) : result PyVal :=
  match Dict.getitem "x" pos, Dict.getitem "y" pos, Dict.getitem "z" pos with
  | inr x, inr y, inr z =>
      let entries := map str_of_int [x; y; z] in
      let w := fold_right Nat.max 0%nat (map String.length entries) in
      let shown_str := "[" ++ join " " (map (pad_left w) entries) ++ "]" in
      let shown_repr := "array([" ++ join ", " (map (pad_left w) entries) ++ "])" in
      inr (PyOpaque "ndarray" shown_str shown_repr)
  | inl e, _, _ => inl e
  | _, inl e, _ => inl e
  | _, _, inl e => inl e
  end.

Definition device_info : PyVal :=
  PyDict [("device_id", PyStr "ofm-0001"); ("name", PyStr "bench scope");
          ("version", PyStr "2.10.1"); ("board", PyStr "Sangaboard v0.3")].

Definition answer (c : Cmd) (pos : Position) : result (Ans c) * Position :=
  match c with
  | GetPosition => (inr pos, pos)
  | GetPositionArray => (position_array pos, pos)
  | Move cmd => (inr tt, apply_move cmd pos)
  | MoveRel cmd => (inr tt, apply_move_rel cmd pos)
  | GrabImage => (inr {| width := 640; height := 480 |}, pos)
  | LinkGet _ => (inr device_info, pos)
  | LinkPostJson _ payload => (inr payload, pos)
  | CtxInfo _ => (inr tt, pos)
  end.

Definition env : Env := {| state := Position; respond := answer |}.

Definition origin : Position := [("x", 0); ("y", 0); ("z", 0)].

Definition microscope : Microscope :=
  {| extensions :=
       [("org.openflexure.microscope",
         Ext.of_dict
           [("device-info", {| href := "/api/v2/extensions/org.openflexure.microscope/device-info" |})]);
        ("org.openflexure.autostorage",
         Ext.of_dict
           [("location", {| href := "/api/v2/extensions/org.openflexure.autostorage/location" |});
            ("list-locations", {| href := "/api/v2/extensions/org.openflexure.autostorage/list-locations" |})])] |}.

End Ideal.

(* ================================================================= *)
(** ** Composite runs, and the exact reading of the Z schedule *)

(** What running [p] and then, if it returned, the continuation gives. *)
Definition then_run {A B S} (r1 : Run A S) (f : A -> S -> Run B S) : Run B S :=
  match outcome r1 with
  | inl e => {| trace := trace r1; outcome := inl e; final := final r1 |}
  | inr a =>
      let r2 := f a (final r1) in
      {| trace := trace r1 ++ trace r2; outcome := outcome r2; final := final r2 |}
  end.

(** What running [p] under a handler gives. *)
Definition else_run {A S} (r1 : Run A S) (h : Exn -> S -> Run A S) : Run A S :=
  match outcome r1 with
  | inr a => r1
  | inl e =>
      let r2 := h e (final r1) in
      {| trace := trace r1 ++ trace r2; outcome := outcome r2; final := final r2 |}
  end.

(** The Z schedule read over the rationals, for comparison with [target_z]:
    the integer part of [start_z + i * (end_z - start_z) / (steps - 1)]
    computed without rounding the quotient. *)
Definition exact_target_z (start_z end_z steps i : Z) : Z :=
  Z.quot (start_z * (steps - 1) + i * (end_z - start_z)) (steps - 1).

(* ================================================================= *)
(** ** The extension catalogue *)

(** The loop [for ext_name in extensions] of [get_extensions], run over the
    names still to visit: look the extension up by name, list its links
    and append its line to [extension_info]. *)
Fixpoint extension_lines (registry : Registry) (names : list string)
    (extension_info : list string) : result (list string) :=
  match names with
  | [] => inr extension_info
  | ext_name :: rest =>
      match Dict.getitem ext_name registry with
      | inl e => inl e
      | inr ext =>
          match Ext.keys ext with
          | inl e => inl e
          | inr links =>
              extension_lines registry rest
                (extension_info ++ ["- " ++ ext_name ++ ": " ++ join ", " links])
          end
      end
  end.

(** [get_extensions] *)
Definition get_extensions (server : FastMCP) : Prog string :=
  microscope <- lift (context_microscope server) ;;
  let names := Dict.keys (extensions microscope) in
  extension_info <- lift (extension_lines (extensions microscope) names []) ;;
  Ret (lines [
    "";
    "    Available Microscope Extensions:";
    "    ";
    "    " ++ join "" extension_info;
    "    "]).

(* ================================================================= *)
(** ** Autofocus and image capture *)

(** [autofocus] and [capture_image] make three calls the other operations
    do not: the client's autofocus routine, its high-quality capture, and
    the PNG encoder of the imaging library.  [Imaging] adds them to the
    calls above and repeats the program constructions over the larger
    set. *)
Module Imaging.

Inductive Op : Type :=
| Basic (c : Cmd)                   (* any of the calls above *)
| Autofocus                         (* microscope.autofocus() *)
| CaptureImage                      (* microscope.capture_image() *)
| SavePng (image : PILImage).       (* pil_image.save(buffer, format='PNG'); buffer.getvalue() *)

Definition Reply (o : Op) : Type :=
  match o with
  | Basic c => Ans c
  | Autofocus => PyVal
  | CaptureImage => PILImage
  | SavePng _ => string
  end.

Inductive Tool (A : Type) : Type :=
| Done (a : A)
| Fail (e : Exn)
| Do (o : Op) (k : result (Reply o) -> Tool A).

Arguments Done {A} a.
Arguments Fail {A} e.
Arguments Do {A} o k.

Fixpoint bind {A B} (p : Tool A) (f : A -> Tool B) : Tool B :=
  match p with
  | Done a => f a
  | Fail e => Fail e
  | Do o k => Do o (fun r => bind (k r) f)
  end.

Definition call (o : Op) : Tool (Reply o) :=
  Do o (fun r => match r with inl e => Fail e | inr a => Done a end).

Definition lift {A} (r : result A) : Tool A :=
  match r with inl e => Fail e | inr a => Done a end.

Declare Scope tool_scope.
Delimit Scope tool_scope with tool.
Notation "x <- p ;; q" := (bind p (fun x => q))
  (at level 61, p at next level, right associativity) : tool_scope.
Notation "p ;; q" := (bind p (fun _ => q))
  (at level 61, right associativity) : tool_scope.
Local Open Scope tool_scope.

Record Env : Type := {
  state : Type;
  respond : forall o : Op, state -> result (Reply o) * state
}.

Record Run (A S : Type) : Type := {
  trace : list Op;
  outcome : result A;
  final : S
}.

Definition after_call {A S} (o : Op) (rest : Run A S) : Run A S :=
  {| trace := o :: trace rest; outcome := outcome rest; final := final rest |}.

Fixpoint run {A} (E : Env) (p : Tool A) (s : state E) : Run A (state E) :=
  match p with
  | Done a => {| trace := []; outcome := inr a; final := s |}
  | Fail e => {| trace := []; outcome := inl e; final := s |}
  | Do o k =>
      let '(r, s') := respond E o s in
      after_call o (run E (k r) s')
  end.

(** The MCP [Image] value that [capture_image] returns. *)
Record Image : Type := { data : string; format : string }.

(** [autofocus] *)
Definition autofocus : Tool string :=
  position <- call (Basic GetPosition) ;;
  before_z <- lift (Dict.getitem "z" position) ;;
  call (Basic (CtxInfo "Running autofocus routine...")) ;;
  result <- call Autofocus ;;
  position <- call (Basic GetPosition) ;;
  after_z <- lift (Dict.getitem "z" position) ;;
  Done (lines [
    "";
    "    Autofocus completed!";
    "    ";
    "    Z position before: " ++ str_of_int before_z;
    "    Z position after: " ++ str_of_int after_z;
    "    Z change: " ++ str_of_int (after_z - before_z);
    "    ";
    "    Autofocus result details:";
    "    " ++ py_str result;
    "    "]).

(** [capture_image] *)
Definition capture_image (high_quality : bool) : Tool Image :=
  pil_image <-
    (if high_quality then
       call (Basic (CtxInfo "Capturing high-quality image...")) ;;
       call CaptureImage
     else
       call (Basic (CtxInfo "Grabbing quick preview image...")) ;;
       call (Basic GrabImage)) ;;
  img_bytes <- call (SavePng pil_image) ;;
  Done {| data := img_bytes; format := "png" |}.

(** The number of images a trace asks the camera for, by path. *)
Fixpoint captures (tr : list Op) : nat * nat :=
  match tr with
  | [] => (0%nat, 0%nat)
  | CaptureImage :: rest => let '(hq, lq) := captures rest in (S hq, lq)
  | Basic GrabImage :: rest => let '(hq, lq) := captures rest in (hq, S lq)
  | _ :: rest => captures rest
  end.

(** Whether a call changes or tries to change the stage position. *)
Definition is_motion (o : Op) : bool :=
  match o with
  | Basic (Move _) | Basic (MoveRel _) => true
  | _ => false
  end.

End Imaging.

(* ================================================================= *)
(** ** Environments with faults *)

(** The ideal stage, except that every call selected by [fails] raises. *)
Module Faulty.

Definition failure : Exn := DeviceError "HTTPError" "500 Server Error".

Definition answer (fails : Cmd -> bool) (c : Cmd) (pos : Position)
    : result (Ans c) * Position :=
  if fails c then (inl failure, pos) else Ideal.answer c pos.

Definition env (fails : Cmd -> bool) : Env :=
  {| state := Position; respond := answer fails |}.

Definition is_grab (c : Cmd) : bool :=
  match c with GrabImage => true | _ => false end.

Definition is_move (c : Cmd) : bool :=
  match c with Move _ | MoveRel _ => true | _ => false end.

Definition is_read (c : Cmd) : bool :=
  match c with GetPosition => true | _ => false end.

End Faulty.

(** The ideal stage with an autofocus routine that leaves the stage at
    [settle pos], a 2592 x 1944 still camera and an encoder that answers a
    fixed byte string. *)
Module IdealImaging.

Definition focus_report : PyVal :=
  PyDict [("status", PyStr "completed"); ("sharpest_z", PyInt 120)].

Definition answer (settle : Position -> Position) (o : Imaging.Op) (pos : Position)
    : result (Imaging.Reply o) * Position :=
  match o with
  | Imaging.Basic c => Ideal.answer c pos
  | Imaging.Autofocus => (inr focus_report, settle pos)
  | Imaging.CaptureImage => (inr {| width := 2592; height := 1944 |}, pos)
  | Imaging.SavePng image => (inr "PNG-bytes", pos)
  end.

Definition env (settle : Position -> Position) : Imaging.Env :=
  {| Imaging.state := Position; Imaging.respond := answer settle |}.

(** The routine finds focus at Z = 120. *)
Definition in_focus : Position -> Position := Dict.set "z" 120.

(** The routine ends with a stage that reports x and y only. *)
Definition z_lost (pos : Position) : Position := [("x", 0); ("y", 0)].

End IdealImaging.

(* ================================================================= *)
(** ** The calls of a Z-stack, in order *)



(* ================================================================= *)
(** ** Integers that a double holds exactly *)

(** The number of binary digits of a non-zero [n]. *)
Definition bits (n : Z) : Z := Z.log2 (Z.abs n) + 1.

(** The double that [float(n)] is when [n] fits in 53 bits: the digits of
    [n] moved up to fill the mantissa. *)
Definition canon (n : Z) : Float.t :=
  if n =? 0 then S754_zero false
  else S754_finite (n <? 0) (Z.to_pos (Z.abs n * 2 ^ (53 - bits n))) (bits n - 53).

(** [f] is the integer [n], held without rounding. *)
Definition represents (f : Float.t) (n : Z) : Prop :=
  Z.abs n < 2 ^ 53 /\ (f = canon n \/ (n = 0 /\ f = S754_zero true)).

(* ================================================================= *)
(** ** Facts about dictionaries *)

Module DictFacts.

Lemma get_set_same {V} (k : string) (v : V) (d : Dict.t V) :
  Dict.get k (Dict.set k v d) = Some v.
Proof.
  induction d as [|[k' v'] rest IH]; simpl.
  - now rewrite String.eqb_refl.
  - destruct (String.eqb k k') eqn:Hk; simpl; rewrite Hk; auto.
Qed.


Lemma set_set {V} (k : string) (v w : V) (d : Dict.t V) :
  Dict.set k v (Dict.set k w d) = Dict.set k v d.
Proof.
  induction d as [|[k0 v0] rest IH]; simpl.
  - now rewrite String.eqb_refl.
  - destruct (String.eqb k k0) eqn:Hk; simpl; rewrite Hk; auto.
    now rewrite IH.
Qed.

End DictFacts.

(* ================================================================= *)
(** ** Running composed programs *)

Section RunFacts.

Variable E : Env.

Lemma run_bind {A B} (p : Prog A) (f : A -> Prog B) (s : state E) :
  run E (bind p f) s = then_run (run E p s) (fun a s' => run E (f a) s').
Proof.
  revert s. induction p as [a|e|c k IH]; intros s; simpl.
  - unfold then_run; simpl. destruct (run E (f a) s); reflexivity.
  - reflexivity.
  - destruct (respond E c s) as [r s']. rewrite IH.
    unfold then_run. destruct (run E (k r) s') as [t [e|a] s'']; reflexivity.
Qed.

Lemma run_try_except {A} (p : Prog A) (h : Exn -> Prog A) (s : state E) :
  run E (try_except p h) s = else_run (run E p s) (fun e s' => run E (h e) s').
Proof.
  revert s. induction p as [a|e|c k IH]; intros s; simpl.
  - reflexivity.
  - unfold else_run; simpl. destruct (run E (h e) s); reflexivity.
  - destruct (respond E c s) as [r s']. rewrite IH.
    unfold else_run. destruct (run E (k r) s') as [t [e|a] s'']; reflexivity.
Qed.

Lemma moves_app (t1 t2 : list Cmd) : moves (t1 ++ t2) = (moves t1 ++ moves t2)%list.
Proof.
  induction t1 as [|c t1 IH]; simpl; auto.
  destruct c; simpl; rewrite IH; reflexivity.
Qed.

End RunFacts.

(** Advance a run by one call or one pure step whose outcome [H] gives. *)
Ltac step H := cbn [bind call lift run]; rewrite H; cbn [bind call lift run].

(* ================================================================= *)
(** ** The value model on small inputs *)

Example repr_position_xyz :
  repr_position [("x", 10); ("y", 0); ("z", -3)] = "{'x': 10, 'y': 0, 'z': -3}".
Proof. reflexivity. Qed.

Example repr_str_list_quotes :
  repr_str_list ["a"; "b'c"] = String "[" (String squote (String "a" (String squote
    (", " ++ String dquote ("b'c" ++ String dquote "]"))))).
Proof. reflexivity. Qed.

Example lower_mixed_case : lower "GeT" = "get" /\ lower "POST" = "post".
Proof. split; reflexivity. Qed.

(** 1000/19 as Python computes it, shown to two decimals, and the integer
    part of nineteen times that quotient. *)
Example float_quotient_1000_19 :
  match Float.int_truediv 1000 19 with
  | inr q => Float.format_2f q = "52.63"
             /\ match Float.of_int 19 with
                | inr n => Float.to_int (Float.mul n q) = inr 999
                | inl _ => False
                end
  | inl _ => False
  end.
Proof. vm_compute. split; reflexivity. Qed.

(** A character lowers to a given small letter only if it is that letter
    or its capital. *)
Ltac by_cases_on_char c :=
  destruct c as [[] [] [] [] [] [] [] []]; vm_compute; intros H;
  solve [discriminate H | auto].

Lemma lower_char_g (c : ascii) : lower_char c = "g"%char -> c = "g"%char \/ c = "G"%char.
Proof. by_cases_on_char c. Qed.

Lemma lower_char_e (c : ascii) : lower_char c = "e"%char -> c = "e"%char \/ c = "E"%char.
Proof. by_cases_on_char c. Qed.

Lemma lower_char_t (c : ascii) : lower_char c = "t"%char -> c = "t"%char \/ c = "T"%char.
Proof. by_cases_on_char c. Qed.

Lemma lower_char_p (c : ascii) : lower_char c = "p"%char -> c = "p"%char \/ c = "P"%char.
Proof. by_cases_on_char c. Qed.

Lemma lower_char_o (c : ascii) : lower_char c = "o"%char -> c = "o"%char \/ c = "O"%char.
Proof. by_cases_on_char c. Qed.

Lemma lower_char_s (c : ascii) : lower_char c = "s"%char -> c = "s"%char \/ c = "S"%char.
Proof. by_cases_on_char c. Qed.

(** The methods that select the read are the eight spellings of "get". *)
Lemma lower_get_iff (method : string) :
  lower method = "get" <->
  In method ["get"; "geT"; "gEt"; "gET"; "Get"; "GeT"; "GEt"; "GET"].
Proof.
  split.
  - destruct method as [|a [|b [|c [|d rest]]]]; cbn [lower]; try discriminate.
    intros H. injection H as Ha Hb Hc.
    destruct (lower_char_g _ Ha) as [->| ->], (lower_char_e _ Hb) as [->| ->],
             (lower_char_t _ Hc) as [->| ->]; cbn; auto 10.
  - cbn. intros H. repeat destruct H as [<-|H]; try reflexivity. destruct H.
Qed.

(** The methods that select the submit are the sixteen spellings of "post". *)
Lemma lower_post_iff (method : string) :
  lower method = "post" <->
  In method ["post"; "posT"; "poSt"; "poST"; "pOst"; "pOsT"; "pOSt"; "pOST";
             "Post"; "PosT"; "PoSt"; "PoST"; "POst"; "POsT"; "POSt"; "POST"].
Proof.
  split.
  - destruct method as [|a [|b [|c [|d [|e rest]]]]]; cbn [lower]; try discriminate.
    intros H. injection H as Ha Hb Hc Hd.
    destruct (lower_char_p _ Ha) as [->| ->], (lower_char_o _ Hb) as [->| ->],
             (lower_char_s _ Hc) as [->| ->], (lower_char_t _ Hd) as [->| ->];
      cbn; auto 20.
  - cbn. intros H. repeat destruct H as [<-|H]; try reflexivity. destruct H.
Qed.

(* ================================================================= *)
(** ** Properties of [move_stage] *)

Section MoveStage.

Variable E : Env.

(** The command dictionary holds the axes given and no other key. *)
Lemma move_command_get (x y z : option Z) (k : string) :
  Dict.get k (move_command x y z) =
  (if k =? "x" then x else if k =? "y" then y else if k =? "z" then z else None)%string.
Proof.
  unfold move_command.
  destruct x as [vx|], y as [vy|], z as [vz|]; simpl;
    destruct (String.eqb k "x") eqn:Hx;
    destruct (String.eqb k "y") eqn:Hy;
    destruct (String.eqb k "z") eqn:Hz;
    try reflexivity;
    repeat match goal with
           | H : String.eqb _ _ = true |- _ => apply String.eqb_eq in H
           end;
    congruence.
Qed.

Lemma move_command_nonempty (x y z : option Z) :
  x <> None \/ y <> None \/ z <> None -> is_empty (move_command x y z) = false.
Proof.
  intros H. destruct x, y, z; try reflexivity.
  destruct H as [H|[H|H]]; congruence.
Qed.

(** C1.  When at least one axis is given and the device answers the two
    position reads (with all three axes) and the move, [move_stage] reads
    the position, sends one move whose dictionary holds exactly the axes
    given, reads the position again, and reports per axis the second
    reading minus the first. *)
Theorem move_stage_reports_delta
    (x y z : option Z) (relative : bool) (s s1 s2 s3 : state E)
    (before after : Position) (bx by_ bz ax ay az : Z) :
  x <> None \/ y <> None \/ z <> None ->
  respond E GetPosition s = (inr before, s1) ->
  (if relative then respond E (MoveRel (move_command x y z)) s1
   else respond E (Move (move_command x y z)) s1) = (inr tt, s2) ->
  respond E GetPosition s2 = (inr after, s3) ->
  Dict.get "x" before = Some bx -> Dict.get "y" before = Some by_ ->
  Dict.get "z" before = Some bz ->
  Dict.get "x" after = Some ax -> Dict.get "y" after = Some ay ->
  Dict.get "z" after = Some az ->
  (forall k : string,
     Dict.get k (move_command x y z) =
     (if k =? "x" then x else if k =? "y" then y else if k =? "z" then z else None)%string)
  /\ run E (move_stage x y z relative) s =
     {| trace := [GetPosition;
                  if relative then MoveRel (move_command x y z)
                  else Move (move_command x y z);
                  GetPosition];
        outcome := inr (lines [
          "";
          "    Stage moved successfully!";
          "    ";
          "    Before: " ++ repr_position before;
          "    After: " ++ repr_position after;
          "    Delta: X: " ++ str_of_int (ax - bx) ++ ", Y: " ++ str_of_int (ay - by_)
            ++ ", Z: " ++ str_of_int (az - bz);
          "    "]);
        final := s3 |}.
Proof.
  intros Hsome Hread1 Hmove Hread2 Hbx Hby Hbz Hax Hay Haz.
  split; [intros k; apply move_command_get|].
  unfold move_stage. rewrite (move_command_nonempty Hsome).
  step Hread1.
  destruct relative; step Hmove; step Hread2;
    unfold Dict.getitem, Dict.copy;
    step Hax; step Hbx; step Hay; step Hby; step Haz; step Hbz; reflexivity.
Qed.

(** C4.  With no axis given, [move_stage] is the plain return of the
    validation text: it makes no call at all, so no command reaches the
    device and the environment is left as it was. *)
Theorem move_stage_without_axes (relative : bool) (s : state E) :
  move_stage None None None relative
    = Ret "No position specified. Please provide x, y, or z coordinates."
  /\ run E (move_stage None None None relative) s =
     {| trace := [];
        outcome := inr "No position specified. Please provide x, y, or z coordinates.";
        final := s |}.
Proof. split; reflexivity. Qed.

End MoveStage.

(** The spec's example: x = 10 on a stage at the origin. *)
Lemma move_stage_reports_delta_witness :
  run Ideal.env (move_stage (Some 10) None None false) Ideal.origin =
  {| trace := [GetPosition; Move [("x", 10)]; GetPosition];
     outcome := inr (lines [
       "";
       "    Stage moved successfully!";
       "    ";
       "    Before: {'x': 0, 'y': 0, 'z': 0}";
       "    After: {'x': 10, 'y': 0, 'z': 0}";
       "    Delta: X: 10, Y: 0, Z: 0";
       "    "]);
     final := [("x", 10); ("y", 0); ("z", 0)] |}.
Proof.
  apply (proj2 (@move_stage_reports_delta Ideal.env (Some 10) None None false
                  Ideal.origin Ideal.origin [("x", 10); ("y", 0); ("z", 0)]
                  [("x", 10); ("y", 0); ("z", 0)]
                  Ideal.origin [("x", 10); ("y", 0); ("z", 0)]
                  0 0 0 10 0 0
                  (or_introl (fun H => eq_ind (Some 10) (fun o => match o with Some _ => True | None => False end) I None H))
                  eq_refl eq_refl eq_refl eq_refl eq_refl eq_refl eq_refl eq_refl eq_refl)).
Defined.

(* ================================================================= *)
(** ** The resource endpoints and the server object *)

(** C10.  [get_position] on the server object of the module raises before
    it reads anything.  Its first statement (line 72) looks the microscope
    up through [mcp.current_context], an attribute the object does not
    have; the function has no [try], so the [AttributeError] leaves it.
    No position is read, whatever keys the device would report, and the
    defaults [.get(k, 0)] of lines 82 to 84 are not reached. *)
Theorem get_position_raises_before_reading (E : Env) (s : state E) :
  run E (get_position mcp) s =
  {| trace := [];
     outcome := inl (AttributeError "'FastMCP' object has no attribute 'current_context'");
     final := s |}.
Proof. reflexivity. Qed.


(** With a handle at hand, [get_position] still does not protect the array
    read of line 76: what it raises leaves the function after the two
    reads. *)
Lemma get_position_array_failure_propagates
    (E : Env) (server : FastMCP) (microscope : Microscope)
    (s s1 s2 : state E) (position : Position) (e : Exn) :
  context_microscope server = inr microscope ->
  respond E GetPosition s = (inr position, s1) ->
  respond E GetPositionArray s1 = (inl e, s2) ->
  run E (get_position server) s =
  {| trace := [GetPosition; GetPositionArray]; outcome := inl e; final := s2 |}.
Proof.
  intros Hctx Hpos Harr. unfold get_position.
  step Hctx. step Hpos. step Harr. reflexivity.
Qed.

(** A stage that reports only its x axis: the client's array read indexes
    "y" and raises. *)
Example get_position_array_needs_all_axes :
  run Ideal.env (get_position {| current_context := Some Ideal.microscope |}) [("x", 4)] =
  {| trace := [GetPosition; GetPositionArray];
     outcome := inl (KeyError "y");
     final := [("x", 4)] |}.
Proof. reflexivity. Qed.

(** The array of a full position, as the client shows it. *)
Example position_array_shown :
  Ideal.position_array [("x", 10); ("y", 0); ("z", -3)] =
  inr (PyOpaque "ndarray" "[10  0 -3]" "array([10,  0, -3])").
Proof. vm_compute. reflexivity. Qed.

(* ================================================================= *)
(** ** Properties of [call_extension] *)

(** C5.  On a registry whose extensions support indexing only, the first
    check of [call_extension] works and the second does not.  A name that
    is not registered gives the text listing the registered names, with no
    call.  A registered name meets the link test of line 229, which stands
    before the [try]: [link_name in extension] indexes the extension with
    0 and the [KeyError] of that lookup leaves [call_extension].  This
    happens for every link name, registered or not, for every method and
    every payload: neither the listing of the links nor the dispatch nor
    the rejection of a method is reached, and no call is made. *)
Theorem call_extension_link_test_raises
    (E : Env) (class_name : string) (wording : string -> string) (link : Link)
    (link_name method : string) (payload : option PyVal) (s : state E) :
  let microscope :=
    {| extensions :=
         [("org.openflexure.microscope",
           Ext.index_only class_name wording [("device-info", link)])] |} in
  run E (call_extension microscope "org.openflexure.camera" link_name method payload) s =
    {| trace := [];
       outcome := inr ("Extension 'org.openflexure.camera' not found. "
                       ++ "Available extensions: ['org.openflexure.microscope']");
       final := s |}
  /\ run E (call_extension microscope "org.openflexure.microscope" link_name method payload) s =
    {| trace := [];
       outcome := inl (KeyError (wording "0"));
       final := s |}.
Proof. split; reflexivity. Qed.


(* ================================================================= *)
(** ** Properties of [run_z_stack] *)

Lemma py_range_nonpositive (n : Z) : n <= 0 -> py_range n = [].
Proof.
  intros H. unfold py_range. replace (Z.to_nat n) with 0%nat by lia. reflexivity.
Qed.

Lemma py_range_length (n : Z) : List.length (py_range n) = Z.to_nat n.
Proof. unfold py_range. now rewrite length_map, length_seq. Qed.

Lemma z_step_of_at_most_one (start_z end_z steps : Z) :
  steps <= 1 -> z_step_of start_z end_z steps = inr (NInt 0).
Proof.
  intros H. unfold z_step_of. destruct (Z.ltb_spec 1 steps); [lia|reflexivity].
Qed.

(** Split on how the environment answers the next call of the run. *)
Ltac answer_cases :=
  cbn [bind call lift run after_call trace outcome final moves grabs];
  match goal with
  | |- context [respond ?E ?c ?s] =>
      let e := fresh "e" in
      let a := fresh "a" in
      let s' := fresh "s" in
      destruct (respond E c s) as [[e|a] s'] eqn:?
  end;
  cbn [bind call lift run after_call trace outcome final moves grabs] in *.

Section ZStackLoop.

Variable E : Env.
Variables start_z steps : Z.
Variable z_step : PyNum.
Variable new_pos : Position.

Let loop := z_stack_loop start_z steps z_step new_pos.


(** A loop that returns has made one move and one capture per index, the
    move of index [i] going to [target_z start_z z_step i]. *)
Lemma z_stack_loop_complete (idxs : list Z) :
  forall (captured caps : list Capture.t) (s : state E),
    outcome (run E (loop idxs captured) s) = inr caps ->
    exists targets : list Z,
      Forall2 (fun i target => target_z start_z z_step i = inr target) idxs targets
      /\ moves (trace (run E (loop idxs captured) s))
         = map (fun target => Dict.set "z" target new_pos) targets
      /\ grabs (trace (run E (loop idxs captured) s)) = List.length idxs
      /\ List.length caps = (List.length captured + List.length idxs)%nat.
Proof.
  unfold loop.
  induction idxs as [|i rest IH]; intros captured caps s; cbn [z_stack_loop].
  - cbn. intros H. injection H as <-. exists []. repeat split; auto.
  - destruct (target_z start_z z_step i) as [e|target] eqn:Htarget;
      cbn [bind call lift run after_call trace outcome final moves grabs];
      [discriminate|].
    answer_cases; [discriminate|].
    answer_cases; [discriminate|].
    match goal with
| |- context [Dict.getitem "z" ?p] => destruct (Dict.getitem "z" p) as [e|actual_z]
end;
      cbn [bind call lift run after_call trace outcome final moves grabs];
      [discriminate|].
    answer_cases; [discriminate|].
    answer_cases; [discriminate|].
    intros H. destruct (IH _ _ _ H) as (targets & Htargets & Hmoves & Hgrabs & Hlen).
    exists (target :: targets). repeat split.
    + constructor; assumption.
    + cbn [map]. now rewrite Hmoves.
    + cbn [List.length]. now rewrite Hgrabs.
    + rewrite Hlen, length_app. cbn [List.length]. lia.
Qed.

End ZStackLoop.

Section ZStack.

Variable E : Env.
Variables start_z end_z steps : Z.

Let program := run_z_stack start_z end_z steps.


(** A stack that returns its summary has moved to the start, made one move
    and one capture per step, and then, as its last two calls, restored
    the saved position and read the position back. *)
Lemma run_z_stack_complete (s s1 : state E) (start_pos : Position) (text : string) :
  respond E GetPosition s = (inr start_pos, s1) ->
  outcome (run E program s) = inr text ->
  exists (z_step : PyNum) (targets : list Z) (before_restore : list Cmd),
    z_step_of start_z end_z steps = inr z_step
    /\ Forall2 (fun i target => target_z start_z z_step i = inr target)
               (py_range steps) targets
    /\ moves (trace (run E program s))
       = (Dict.set "z" start_z start_pos
            :: map (fun target => Dict.set "z" target start_pos) targets
            ++ [start_pos])%list
    /\ trace (run E program s) = (before_restore ++ [Move start_pos; GetPosition])%list
    /\ grabs before_restore = Z.to_nat steps
    /\ exists (captured_positions : list Capture.t) (step_size : string)
              (current : Position),
         List.length captured_positions = Z.to_nat steps
         /\ text = lines [
              "";
              "    Z-stack acquisition completed!";
              "    ";
              "    Captured " ++ str_of_int (Z.of_nat (List.length captured_positions))
                ++ " images";
              "    Z range: " ++ str_of_int start_z ++ " to " ++ str_of_int end_z;
              "    Step size: " ++ step_size;
              "    ";
              "    Images captured at Z positions:";
              "    " ++ repr_int_list (map Capture.z captured_positions);
              "    ";
              "    Current position: " ++ repr_position current;
              "    "].
Proof.
  intros Hread. unfold program, run_z_stack.
  destruct (z_step_of start_z end_z steps) as [e|z_step];
    cbn [bind call lift run after_call trace outcome final moves grabs];
    [discriminate|].
  rewrite Hread. cbn [bind call lift run after_call trace outcome final moves grabs].
  unfold Dict.copy.
  answer_cases; [discriminate|].
  answer_cases; [discriminate|].
  rewrite run_bind. unfold then_run.
  destruct (outcome (run E (z_stack_loop start_z steps z_step
              (Dict.set "z" start_z start_pos) (py_range steps) []) s2))
    as [e|caps] eqn:Hloop; cbn [trace outcome]; [discriminate|].
  destruct (z_stack_loop_complete E start_z steps z_step _ _ _ _ Hloop)
    as (targets & Htargets & Hmoves & Hgrabs & Hlen).
  answer_cases; [discriminate|].
  destruct (num_format_2f z_step) as [e|step_size];
    cbn [bind call lift run after_call trace outcome final moves grabs];
    [discriminate|].
  answer_cases; [discriminate|].
  intros Htext. injection Htext as <-.
  exists z_step, targets.
  exists (GetPosition :: Move (Dict.set "z" start_z start_pos)
          :: CtxInfo (starting_info start_z end_z steps)
          :: trace (run E (z_stack_loop start_z steps z_step
               (Dict.set "z" start_z start_pos) (py_range steps) []) s2)).
  repeat split.
  - exact Htargets.
  - rewrite moves_app, Hmoves. cbn [moves]. f_equal. f_equal.
    apply map_ext. intros target. apply DictFacts.set_set.
  - cbn [grabs]. rewrite Hgrabs. apply py_range_length.
  - eexists caps, step_size, _. split; [|reflexivity].
    rewrite Hlen. apply py_range_length.
Qed.


(** With an [int] step of 0 every target is [start_z]. *)
Lemma target_z_zero_step (i : Z) : target_z start_z (NInt 0) i = inr start_z.
Proof. unfold target_z, int_mul, int_add, py_int. f_equal. lia. Qed.

(** C9.  With [steps <= 0] the step size is the [int] 0 without any
    division, the loop body never runs, and, the device answering, the
    calls are exactly: read the position, move to [start_z] with the
    other axes as saved, log, move to the saved position, read the
    position; the summary reports 0 images. *)
Theorem z_stack_without_steps
    (s s1 s2 s3 s4 s5 : state E) (start_pos current : Position) :
  steps <= 0 ->
  respond E GetPosition s = (inr start_pos, s1) ->
  respond E (Move (Dict.set "z" start_z start_pos)) s1 = (inr tt, s2) ->
  respond E (CtxInfo (starting_info start_z end_z steps)) s2 = (inr tt, s3) ->
  respond E (Move start_pos) s3 = (inr tt, s4) ->
  respond E GetPosition s4 = (inr current, s5) ->
  z_step_of start_z end_z steps = inr (NInt 0)
  /\ py_range steps = []
  /\ run E program s =
     {| trace := [GetPosition;
                  Move (Dict.set "z" start_z start_pos);
                  CtxInfo (starting_info start_z end_z steps);
                  Move start_pos;
                  GetPosition];
        outcome := inr (lines [
          "";
          "    Z-stack acquisition completed!";
          "    ";
          "    Captured 0 images";
          "    Z range: " ++ str_of_int start_z ++ " to " ++ str_of_int end_z;
          "    Step size: 0.00";
          "    ";
          "    Images captured at Z positions:";
          "    []";
          "    ";
          "    Current position: " ++ repr_position current;
          "    "]);
        final := s5 |}.
Proof.
  intros Hsteps Hread Hstart Hinfo Hrestore Hcurrent.
  assert (Hstep : z_step_of start_z end_z steps = inr (NInt 0))
    by (apply z_step_of_at_most_one; lia).
  split; [exact Hstep|]. split; [now apply py_range_nonpositive|].
  unfold program, run_z_stack. rewrite Hstep, (py_range_nonpositive Hsteps).
  step Hread. unfold Dict.copy. step Hstart. step Hinfo.
  cbn [z_stack_loop]. step Hrestore.
  change (num_format_2f (NInt 0)) with (@inr Exn string "0.00").
  step Hcurrent. reflexivity.
Qed.

End ZStack.

Section ZStackSingle.

Variable E : Env.
Variables start_z end_z : Z.

(** C6.  With [steps = 1] the step size is the [int] 0, taken without
    evaluating the division, and, the device answering, the stack makes
    exactly one capture, after a move whose "z" is [start_z]. *)
Theorem z_stack_single_step
    (s s1 s2 s3 s4 s5 s6 s7 s8 s9 : state E)
    (start_pos actual_pos current : Position) (actual_z : Z) (image : PILImage) :
  let new_pos := Dict.set "z" start_z start_pos in
  respond E GetPosition s = (inr start_pos, s1) ->
  respond E (Move new_pos) s1 = (inr tt, s2) ->
  respond E (CtxInfo (starting_info start_z end_z 1)) s2 = (inr tt, s3) ->
  respond E (Move new_pos) s3 = (inr tt, s4) ->
  respond E GetPosition s4 = (inr actual_pos, s5) ->
  Dict.get "z" actual_pos = Some actual_z ->
  respond E (CtxInfo (capturing_info 0 1 actual_z)) s5 = (inr tt, s6) ->
  respond E GrabImage s6 = (inr image, s7) ->
  respond E (Move start_pos) s7 = (inr tt, s8) ->
  respond E GetPosition s8 = (inr current, s9) ->
  z_step_of start_z end_z 1 = inr (NInt 0)
  /\ Dict.get "z" new_pos = Some start_z
  /\ run E (run_z_stack start_z end_z 1) s =
     {| trace := [GetPosition;
                  Move new_pos;
                  CtxInfo (starting_info start_z end_z 1);
                  Move new_pos;
                  GetPosition;
                  CtxInfo (capturing_info 0 1 actual_z);
                  GrabImage;
                  Move start_pos;
                  GetPosition];
        outcome := inr (lines [
          "";
          "    Z-stack acquisition completed!";
          "    ";
          "    Captured 1 images";
          "    Z range: " ++ str_of_int start_z ++ " to " ++ str_of_int end_z;
          "    Step size: 0.00";
          "    ";
          "    Images captured at Z positions:";
          "    [" ++ str_of_int actual_z ++ "]";
          "    ";
          "    Current position: " ++ repr_position current;
          "    "]);
        final := s9 |}.
Proof.
  intros new_pos Hread Hstart Hinfo Hmove Hactual Hz Hcapturing Hgrab Hrestore Hcurrent.
  split; [reflexivity|]. split; [apply DictFacts.get_set_same|].
  unfold run_z_stack.
  change (z_step_of start_z end_z 1) with (@inr Exn PyNum (NInt 0)).
  change (py_range 1) with [0].
  step Hread. unfold Dict.copy. fold new_pos. step Hstart. step Hinfo.
  cbn [z_stack_loop]. step (target_z_zero_step start_z 0). unfold Dict.copy, new_pos.
  rewrite DictFacts.set_set. fold new_pos.
  step Hmove. step Hactual. unfold Dict.getitem. step Hz. step Hcapturing.
  step Hgrab. step Hrestore.
  change (num_format_2f (NInt 0)) with (@inr Exn string "0.00").
  step Hcurrent. reflexivity.
Qed.

(** The division that [steps = 1] avoids would have raised. *)
Lemma single_step_division_would_raise :
  Float.int_truediv (end_z - start_z) (1 - 1) = inl (ZeroDivisionError "division by zero").
Proof. reflexivity. Qed.

End ZStackSingle.


(** A stack asked for no step at all. *)
Lemma z_stack_without_steps_witness :
  run Ideal.env (run_z_stack 5 9 0) Ideal.origin =
  {| trace := [GetPosition;
               Move [("x", 0); ("y", 0); ("z", 5)];
               CtxInfo "Starting Z-stack acquisition from Z=5 to Z=9 with 0 steps";
               Move [("x", 0); ("y", 0); ("z", 0)];
               GetPosition];
     outcome := inr (lines [
       "";
       "    Z-stack acquisition completed!";
       "    ";
       "    Captured 0 images";
       "    Z range: 5 to 9";
       "    Step size: 0.00";
       "    ";
       "    Images captured at Z positions:";
       "    []";
       "    ";
       "    Current position: {'x': 0, 'y': 0, 'z': 0}";
       "    "]);
     final := Ideal.origin |}.
Proof.
  apply (proj2 (proj2 (@z_stack_without_steps Ideal.env 5 9 0
                  Ideal.origin Ideal.origin [("x", 0); ("y", 0); ("z", 5)]
                  [("x", 0); ("y", 0); ("z", 5)] Ideal.origin Ideal.origin
                  Ideal.origin Ideal.origin
                  (Z.le_refl 0) eq_refl eq_refl eq_refl eq_refl eq_refl))).
Defined.

(** A single-step stack at Z = 5. *)
Lemma z_stack_single_step_witness :
  run Ideal.env (run_z_stack 5 9 1) Ideal.origin =
  {| trace := [GetPosition;
               Move [("x", 0); ("y", 0); ("z", 5)];
               CtxInfo "Starting Z-stack acquisition from Z=5 to Z=9 with 1 steps";
               Move [("x", 0); ("y", 0); ("z", 5)];
               GetPosition;
               CtxInfo "Capturing image 1/1 at Z=5";
               GrabImage;
               Move [("x", 0); ("y", 0); ("z", 0)];
               GetPosition];
     outcome := inr (lines [
       "";
       "    Z-stack acquisition completed!";
       "    ";
       "    Captured 1 images";
       "    Z range: 5 to 9";
       "    Step size: 0.00";
       "    ";
       "    Images captured at Z positions:";
       "    [5]";
       "    ";
       "    Current position: {'x': 0, 'y': 0, 'z': 0}";
       "    "]);
     final := Ideal.origin |}.
Proof.
  pose (at5 := [("x", 0); ("y", 0); ("z", 5)] : Position).
  apply (proj2 (proj2 (@z_stack_single_step Ideal.env 5 9
                  Ideal.origin Ideal.origin at5 at5 at5 at5 at5 at5
                  Ideal.origin Ideal.origin
                  Ideal.origin at5 Ideal.origin 5 {| width := 640; height := 480 |}
                  eq_refl eq_refl eq_refl eq_refl eq_refl eq_refl eq_refl eq_refl
                  eq_refl eq_refl))).
Defined.

(** C2.  On [run_z_stack(start_z=0, end_z=1000, steps=20)] the step size is
    the double nearest 1000/19, nineteen times that is the double just
    below 1000, and its integer part is 999: the last move of the stack goes
    to Z = 999, where the schedule read over the rationals ends at
    [end_z] = 1000. *)
Theorem z_stack_last_step_falls_short :
  exists z_step : PyNum,
    z_step_of 0 1000 20 = inr z_step
    /\ target_z 0 z_step 19 = inr 999
    /\ exact_target_z 0 1000 20 19 = 1000
    /\ map (Dict.get "z")
           (moves (trace (run Ideal.env (run_z_stack 0 1000 20) Ideal.origin)))
       = map Some [0; 0; 52; 105; 157; 210; 263; 315; 368; 421; 473; 526; 578; 631; 684;
                   736; 789; 842; 894; 947; 999; 0].
Proof.
  eexists. split; [reflexivity|]. repeat split; vm_compute; reflexivity.
Qed.

(** The spec's example, 0 to 90 in 10 steps, lands on every tenth step. *)
Example z_stack_0_90_10 :
  map (Dict.get "z") (moves (trace (run Ideal.env (run_z_stack 0 90 10) Ideal.origin)))
  = map Some [0; 0; 10; 20; 30; 40; 50; 60; 70; 80; 90; 0]
  /\ grabs (trace (run Ideal.env (run_z_stack 0 90 10) Ideal.origin)) = 10%nat.
Proof. split; vm_compute; reflexivity. Qed.

(* ================================================================= *)
(** ** Further properties of [move_stage] *)

Section MoveStageFailures.

Variable E : Env.
Variables x y z : option Z.
Variable relative : bool.

Let command : Cmd :=
  if relative then MoveRel (move_command x y z) else Move (move_command x y z).

Lemma move_stage_first_read (s : state E) :
  x <> None \/ y <> None \/ z <> None ->
  run E (move_stage x y z relative) s =
  let '(r, s1) := respond E GetPosition s in
  after_call GetPosition
    (run E (match r with
            | inl e => Raise e
            | inr before_pos =>
                bind (if relative then call (MoveRel (move_command x y z))
                      else call (Move (move_command x y z)))
                  (fun _ =>
                   after_pos <- call GetPosition ;;
                   ax <- lift (Dict.getitem "x" after_pos) ;;
                   bx <- lift (Dict.getitem "x" before_pos) ;;
                   ay <- lift (Dict.getitem "y" after_pos) ;;
                   byy <- lift (Dict.getitem "y" before_pos) ;;
                   az <- lift (Dict.getitem "z" after_pos) ;;
                   bz <- lift (Dict.getitem "z" before_pos) ;;
                   Ret (lines [
                     "";
                     "    Stage moved successfully!";
                     "    ";
                     "    Before: " ++ repr_position before_pos;
                     "    After: " ++ repr_position after_pos;
                     "    Delta: X: " ++ str_of_int (ax - bx) ++ ", Y: "
                       ++ str_of_int (ay - byy) ++ ", Z: " ++ str_of_int (az - bz);
                     "    "]))
            end) s1).
Proof.
  intros Hsome. unfold move_stage. rewrite (move_command_nonempty Hsome).
  cbn [bind call run]. destruct (respond E GetPosition s) as [[e|before] s1]; reflexivity.
Qed.

(** X1.  A stage whose position cannot be read is not moved: when the first
    read raises, [move_stage] raises the same exception and has sent
    nothing else. *)
Theorem move_stage_unreadable_position_sends_no_move
    (s s1 : state E) (e : Exn) :
  x <> None \/ y <> None \/ z <> None ->
  respond E GetPosition s = (inl e, s1) ->
  run E (move_stage x y z relative) s =
  {| trace := [GetPosition]; outcome := inl e; final := s1 |}.
Proof.
  intros Hsome Hread. rewrite (move_stage_first_read s Hsome), Hread. reflexivity.
Qed.

(** X2.  A move the device refuses is not caught: [move_stage] raises the
    device's exception, returns no report and does not read the position
    again. *)
Theorem move_stage_refused_move_propagates
    (s s1 s2 : state E) (before : Position) (e : Exn) :
  x <> None \/ y <> None \/ z <> None ->
  respond E GetPosition s = (inr before, s1) ->
  (if relative then respond E (MoveRel (move_command x y z)) s1
   else respond E (Move (move_command x y z)) s1) = (inl e, s2) ->
  run E (move_stage x y z relative) s =
  {| trace := [GetPosition; command]; outcome := inl e; final := s2 |}.
Proof.
  intros Hsome Hread Hmove. rewrite (move_stage_first_read s Hsome), Hread.
  unfold command. destruct relative; cbn [bind call run]; rewrite Hmove; reflexivity.
Qed.

(** X3.  The report needs all three axes in both readings.  When one is
    missing, [move_stage] raises [KeyError] for an axis name, and it does
    so after the move has been sent and answered. *)
Theorem move_stage_missing_axis_raises_after_moving
    (s s1 s2 s3 : state E) (before after : Position) (axis : string) :
  x <> None \/ y <> None \/ z <> None ->
  respond E GetPosition s = (inr before, s1) ->
  (if relative then respond E (MoveRel (move_command x y z)) s1
   else respond E (Move (move_command x y z)) s1) = (inr tt, s2) ->
  respond E GetPosition s2 = (inr after, s3) ->
  In axis ["x"; "y"; "z"] ->
  Dict.get axis before = None \/ Dict.get axis after = None ->
  exists missing : string,
    In missing ["x"; "y"; "z"]
    /\ (Dict.get missing before = None \/ Dict.get missing after = None)
    /\ run E (move_stage x y z relative) s =
       {| trace := [GetPosition; command; GetPosition];
          outcome := inl (KeyError missing);
          final := s3 |}.
Proof.
  intros Hsome Hread Hmove Hread2 Haxis Hmissing.
  rewrite (move_stage_first_read s Hsome), Hread. unfold command.
  assert (Hrun : forall k : unit -> Prog string,
             run E (bind (if relative then call (MoveRel (move_command x y z))
                          else call (Move (move_command x y z))) k) s1
             = after_call (if relative then MoveRel (move_command x y z)
                           else Move (move_command x y z)) (run E (k tt) s2)).
  { intros k. destruct relative; cbn [bind call run]; rewrite Hmove; reflexivity. }
  rewrite Hrun. cbn [bind call run]. rewrite Hread2. cbn [bind call run].
  unfold Dict.getitem.
  destruct (Dict.get "x" after) eqn:Hax; cbn [bind lift run];
    [|exists "x"; cbn; auto 10].
  destruct (Dict.get "x" before) eqn:Hbx; cbn [bind lift run];
    [|exists "x"; cbn; auto 10].
  destruct (Dict.get "y" after) eqn:Hay; cbn [bind lift run];
    [|exists "y"; cbn; auto 10].
  destruct (Dict.get "y" before) eqn:Hby; cbn [bind lift run];
    [|exists "y"; cbn; auto 10].
  destruct (Dict.get "z" after) eqn:Haz; cbn [bind lift run];
    [|exists "z"; cbn; auto 10].
  destruct (Dict.get "z" before) eqn:Hbz; cbn [bind lift run];
    [|exists "z"; cbn; auto 10].
  exfalso. cbn in Haxis.
  destruct Haxis as [<-|[<-|[<-|[]]]]; destruct Hmissing; congruence.
Qed.

End MoveStageFailures.

(** A stage whose position read fails. *)
Lemma move_stage_unreadable_position_sends_no_move_witness :
  run (Faulty.env Faulty.is_read) (move_stage (Some 10) None None false) Ideal.origin =
  {| trace := [GetPosition]; outcome := inl Faulty.failure; final := Ideal.origin |}.
Proof.
  apply (@move_stage_unreadable_position_sends_no_move (Faulty.env Faulty.is_read)
           (Some 10) None None false Ideal.origin Ideal.origin Faulty.failure
           (or_introl (fun H => eq_ind (Some 10)
              (fun o => match o with Some _ => True | None => False end) I None H))
           eq_refl).
Defined.

(** A stage that refuses to move. *)
Lemma move_stage_refused_move_propagates_witness :
  run (Faulty.env Faulty.is_move) (move_stage None None (Some 40) true) Ideal.origin =
  {| trace := [GetPosition; MoveRel [("z", 40)]];
     outcome := inl Faulty.failure;
     final := Ideal.origin |}.
Proof.
  apply (@move_stage_refused_move_propagates (Faulty.env Faulty.is_move)
           None None (Some 40) true Ideal.origin Ideal.origin Ideal.origin
           Ideal.origin Faulty.failure
           (or_intror (or_intror (fun H => eq_ind (Some 40)
              (fun o => match o with Some _ => True | None => False end) I None H)))
           eq_refl eq_refl).
Defined.

(** A stage that reports no y axis: the move to x = 10 is made, the report
    is not. *)
Lemma move_stage_missing_axis_raises_after_moving_witness :
  exists missing : string,
    In missing ["x"; "y"; "z"]
    /\ (Dict.get missing [("x", 0); ("z", 0)] = None
        \/ Dict.get missing [("x", 10); ("z", 0)] = None)
    /\ run Ideal.env (move_stage (Some 10) None None false) [("x", 0); ("z", 0)] =
       {| trace := [GetPosition; Move [("x", 10)]; GetPosition];
          outcome := inl (KeyError missing);
          final := [("x", 10); ("z", 0)] |}.
Proof.
  apply (@move_stage_missing_axis_raises_after_moving Ideal.env
           (Some 10) None None false
           [("x", 0); ("z", 0)] [("x", 0); ("z", 0)] [("x", 10); ("z", 0)]
           [("x", 10); ("z", 0)] [("x", 0); ("z", 0)] [("x", 10); ("z", 0)] "y"
           (or_introl (fun H => eq_ind (Some 10)
              (fun o => match o with Some _ => True | None => False end) I None H))
           eq_refl eq_refl eq_refl (or_intror (or_introl eq_refl)) (or_introl eq_refl)).
Defined.

(* ================================================================= *)
(** ** Further properties of [call_extension] *)

Section CallExtensionMore.

Variable E : Env.
Variable microscope : Microscope.
Variables extension_name link_name method : string.
Variable payload : option PyVal.

Let program := call_extension microscope extension_name link_name method payload.

(** X4.  Whatever the registry holds and whatever the environment answers,
    [call_extension] makes no call at all or exactly one, a [get] or a
    [post_json] on the link the extension gave for the name, sent only
    after the link test answered true.  An exception leaves it in two
    ways only, both before the [try] and before any call: the link test
    of line 229 raises, or the test answers false and listing the links
    for the message of line 230 raises. *)
Theorem call_extension_raises_only_before_dispatch (s : state E) :
  let r := run E program s in
  (trace r = []
   \/ exists (ext : Ext.t) (link : Link),
        Dict.get extension_name (extensions microscope) = Some ext
        /\ Ext.contains ext link_name = inr true
        /\ Ext.getitem ext link_name = inr link
        /\ ((lower method = "get" /\ trace r = [LinkGet link])
            \/ (lower method = "post"
                /\ trace r = [LinkPostJson link
                                (match payload with None => PyDict [] | Some p => p end)])))
  /\ (forall e : Exn, outcome r = inl e ->
        trace r = [] /\ final r = s
        /\ exists ext : Ext.t,
             Dict.get extension_name (extensions microscope) = Some ext
             /\ (Ext.contains ext link_name = inl e
                 \/ (Ext.contains ext link_name = inr false /\ Ext.keys ext = inl e))).
Proof.
  unfold program, call_extension, Dict.mem, Dict.getitem.
  destruct (Dict.get extension_name (extensions microscope)) as [ext|] eqn:Hext;
    cbn [negb bind lift];
    [|split; [left; reflexivity|intros e H; discriminate H]].
  destruct (Ext.contains ext link_name) as [e0|[|]] eqn:Hfound; cbn [negb bind lift].
  - split; [left; reflexivity|].
    intros e H. injection H as <-. repeat split. exists ext. auto.
  - destruct (String.eqb (lower method) "get") eqn:Hget.
    + apply String.eqb_eq in Hget.
      destruct (Ext.getitem ext link_name) as [e0|link] eqn:Hlink;
        cbn -[lines String.append lower];
        [split; [left; reflexivity|intros e H; discriminate H]|].
      destruct (respond E (LinkGet link) s) as [[e1|answer] s'];
        cbn -[lines String.append lower];
        (split; [right; exists ext, link; repeat split; auto|intros e H; discriminate H]).
    + destruct (String.eqb (lower method) "post") eqn:Hpost.
      * apply String.eqb_eq in Hpost.
        destruct (Ext.getitem ext link_name) as [e0|link] eqn:Hlink;
          cbn -[lines String.append lower];
          [split; [left; reflexivity|intros e H; discriminate H]|].
        destruct (respond E (LinkPostJson link _) s) as [[e1|answer] s'];
          cbn -[lines String.append lower];
          (split; [right; exists ext, link; repeat split; auto|intros e H; discriminate H]).
      * split; [left; reflexivity|intros e H; discriminate H].
  - destruct (Ext.keys ext) as [e0|links] eqn:Hkeys; cbn [bind lift];
      (split; [left; reflexivity|]); intros e H; [|discriminate H].
    injection H as <-. repeat split. exists ext. auto.
Qed.

(** X5.  The payload matters to "post" only: under any other method the
    program is the one obtained with no payload at all. *)
Theorem call_extension_ignores_payload_unless_post :
  lower method <> "post" ->
  program = call_extension microscope extension_name link_name method None.
Proof.
  intros Hpost. apply String.eqb_neq in Hpost.
  unfold program, call_extension. rewrite Hpost. reflexivity.
Qed.

End CallExtensionMore.

(** A payload passed along with a read. *)
Lemma call_extension_ignores_payload_unless_post_witness :
  call_extension Ideal.microscope "org.openflexure.autostorage" "location" "Get"
                 (Some (PyDict [("path", PyStr "/tmp")]))
  = call_extension Ideal.microscope "org.openflexure.autostorage" "location" "Get" None.
Proof.
  apply (@call_extension_ignores_payload_unless_post Ideal.microscope
           "org.openflexure.autostorage" "location" "Get"
           (Some (PyDict [("path", PyStr "/tmp")]))).
  discriminate.
Defined.

(* ================================================================= *)
(** ** Further properties of [get_microscope_info] *)

(** X7.  Everything in [get_microscope_info] after its first statement is
    under the [try] whose handler returns the fallback text.  So the only
    exception that can leave the operation is that of the lookup through
    [current_context] (line 41), raised before any call; once the lookup
    has given a microscope the operation returns a text; and in every run
    the device is contacted at most once, by the [get] on an endpoint. *)
Theorem get_microscope_info_raises_only_at_context_lookup
    (E : Env) (server : FastMCP) (s : state E) :
  let r := run E (get_microscope_info server) s in
  (forall e : Exn, outcome r = inl e ->
     context_microscope server = inl e /\ trace r = [] /\ final r = s)
  /\ (forall microscope : Microscope, context_microscope server = inr microscope ->
        exists text : string, outcome r = inr text)
  /\ (trace r = [] \/ exists endpoint : Link, trace r = [LinkGet endpoint]).
Proof.
  unfold get_microscope_info.
  destruct (context_microscope server) as [e0|microscope]; cbn [bind lift].
  - repeat split.
    + injection H as <-. reflexivity.
    + intros microscope H. discriminate H.
    + left. reflexivity.
  - assert (Hdone : forall (text : string) (t : list Cmd) (s' : state E),
              (t = [] \/ exists endpoint : Link, t = [LinkGet endpoint]) ->
              let r := {| trace := t; outcome := inr text; final := s' |} in
              (forall e : Exn, outcome r = inl e ->
                 @inr Exn Microscope microscope = inl e /\ trace r = [] /\ final r = s)
              /\ (forall m : Microscope, @inr Exn Microscope microscope = inr m ->
                    exists text' : string, outcome r = inr text')
              /\ (trace r = [] \/ exists endpoint : Link, trace r = [LinkGet endpoint])).
    { intros text t s' Ht r. repeat split.
      - discriminate H.
      - discriminate H.
      - discriminate H.
      - intros m _. exists text. reflexivity.
      - exact Ht. }
    unfold fetch_device_info.
    destruct (Dict.get "org.openflexure.microscope" (extensions microscope)) as [ext|];
      cbn [attr_of bind lift try_except run]; [|apply Hdone; left; reflexivity].
    destruct (Ext.get ext "device-info") as [e0|[endpoint|]];
      cbn [attr_of bind lift try_except call run];
      try (apply Hdone; left; reflexivity).
    destruct (respond E (LinkGet endpoint) s) as [[e1|device_info] s'];
      cbn [after_call bind lift try_except call run];
      [apply Hdone; right; exists endpoint; reflexivity|].
    destruct device_info; cbn [py_get bind lift try_except run app];
      apply Hdone; right; exists endpoint; reflexivity.
Qed.

(* ================================================================= *)
(** ** Properties of [get_extensions] *)

Lemma dict_get_of_key {V} (k : string) (d : Dict.t V) :
  In k (Dict.keys d) -> exists v : V, Dict.get k d = Some v.
Proof.
  induction d as [|[k' v'] rest IH]; cbn; [tauto|].
  intros [->|Hin].
  - rewrite String.eqb_refl. eauto.
  - destruct (String.eqb k k'); eauto.
Qed.

Lemma dict_get_in {V} (k : string) (v : V) (d : Dict.t V) :
  Dict.get k d = Some v -> In (k, v) d.
Proof.
  induction d as [|[k' v'] rest IH]; cbn; [discriminate|].
  destruct (String.eqb k k') eqn:Hk.
  - apply String.eqb_eq in Hk. subst k'. intros H. injection H as ->. now left.
  - intros H. right. now apply IH.
Qed.

(** The loop over names of the registry ends with the lines, or with the
    exception of an extension's [keys]: the lookups by name cannot fail. *)
Lemma extension_lines_cases (registry : Registry) (names : list string) :
  forall extension_info : list string,
    (forall n, In n names -> In n (Dict.keys registry)) ->
    (exists out : list string, extension_lines registry names extension_info = inr out)
    \/ (exists (e : Exn) (name : string) (ext : Ext.t),
          extension_lines registry names extension_info = inl e
          /\ In (name, ext) registry /\ Ext.keys ext = inl e).
Proof.
  induction names as [|n rest IH]; intros extension_info Hknown; cbn.
  - left. eauto.
  - destruct (dict_get_of_key n registry (Hknown n (or_introl eq_refl))) as [ext Hext].
    unfold Dict.getitem. rewrite Hext.
    destruct (Ext.keys ext) as [e|links] eqn:Hkeys.
    + right. exists e, n, ext. repeat split; auto. now apply dict_get_in.
    + apply IH. intros m Hm. apply Hknown. now right.
Qed.

(** X10.  [get_extensions] contacts no device: it returns or raises at
    once.  On the server object of the module it raises the
    [AttributeError] of the lookup through [current_context] (line 92)
    and does not look at the registry.  On any server, what it raises is
    the exception of that lookup or, past it, the exception of some
    extension's [keys()] at line 99; and a registry that begins with an
    extension supporting indexing only makes it raise there. *)
Theorem get_extensions_raises_at_lookup_or_listing (server : FastMCP) :
  get_extensions mcp
    = Raise (AttributeError "'FastMCP' object has no attribute 'current_context'")
  /\ match context_microscope server with
     | inl e => get_extensions server = Raise e
     | inr microscope =>
         (exists text : string, get_extensions server = Ret text)
         \/ (exists (e : Exn) (name : string) (ext : Ext.t),
               get_extensions server = Raise e
               /\ In (name, ext) (extensions microscope) /\ Ext.keys ext = inl e)
     end
  /\ (forall (class_name name : string) (wording : string -> string)
             (links : Dict.t Link) (rest : Registry),
        get_extensions
          {| current_context :=
               Some {| extensions := (name, Ext.index_only class_name wording links) :: rest |} |}
        = Raise (AttributeError ("'" ++ class_name ++ "' object has no attribute 'keys'"))).
Proof.
  split; [reflexivity|]. split.
  - unfold get_extensions.
    destruct (context_microscope server) as [e|microscope]; cbn [bind lift]; [reflexivity|].
    destruct (extension_lines_cases (extensions microscope)
                (Dict.keys (extensions microscope)) [] (fun n H => H))
      as [[out Hout]|(e & name & ext & Hout & Hin & Hkeys)]; rewrite Hout.
    + left. eexists. reflexivity.
    + right. exists e, name, ext. auto.
  - intros class_name name wording links rest.
    unfold get_extensions, context_microscope.
    cbn [current_context extensions bind lift Dict.keys map fst extension_lines].
    unfold Dict.getitem. cbn [Dict.get]. rewrite String.eqb_refl. reflexivity.
Qed.

(* ================================================================= *)
(** ** Further properties of [run_z_stack] *)


(** X12.  The step size is computed before the device is contacted, and the
    only way it can fail is by overflow of the quotient: no input makes
    [run_z_stack] divide by zero, and a stack whose step size overflows
    raises [OverflowError] without having made any call. *)
Theorem z_stack_step_size_fails_only_by_overflow
    (E : Env) (start_z end_z steps : Z) (s : state E) :
  match z_step_of start_z end_z steps with
  | inr _ => True
  | inl e =>
      1 < steps
      /\ e = OverflowError "integer division result too large for a float"
      /\ run E (run_z_stack start_z end_z steps) s =
         {| trace := []; outcome := inl e; final := s |}
  end.
Proof.
  unfold run_z_stack.
  destruct (z_step_of start_z end_z steps) as [e|z_step] eqn:Hstep; [|exact I].
  unfold z_step_of in Hstep.
  destruct (Z.ltb_spec 1 steps) as [Hsteps|Hsteps]; [|discriminate].
  unfold Float.int_truediv in Hstep.
  destruct (Z.eqb_spec (steps - 1) 0) as [Hzero|_]; [lia|].
  destruct (end_z - start_z =? 0); [discriminate|].
  destruct (SFdiv_core_binary Float.prec Float.emax (Z.abs (end_z - start_z)) 0
              (Z.abs (steps - 1)) 0) as [[q e'] l].
  destruct (Float.is_infinite _); [|discriminate].
  injection Hstep as <-. repeat split. exact Hsteps.
Qed.

(** A range of 10^400 steps over two images: the quotient is beyond the
    largest double. *)
Example z_stack_step_size_overflow :
  run Ideal.env (run_z_stack 0 (10 ^ 400) 2) Ideal.origin =
  {| trace := [];
     outcome := inl (OverflowError "integer division result too large for a float");
     final := Ideal.origin |}.
Proof. vm_compute. reflexivity. Qed.

Section ZStackRounds.

Variable E : Env.
Variables start_z steps : Z.
Variable z_step : PyNum.
Variable new_pos : Position.

Let loop := z_stack_loop start_z steps z_step new_pos.


End ZStackRounds.


Section ZStackMore.

Variable E : Env.
Variables start_z end_z steps : Z.

(** X13.  A failure inside the loop ends the operation there: the
    exception is raised to the caller and nothing is sent after the failing
    call, in particular not the move back to the saved position. *)
Theorem z_stack_failure_in_loop_skips_restore
    (s s1 s2 s3 : state E) (start_pos : Position) (z_step : PyNum) (e : Exn) :
  let new_pos := Dict.set "z" start_z start_pos in
  let loop := z_stack_loop start_z steps z_step new_pos (py_range steps) [] in
  z_step_of start_z end_z steps = inr z_step ->
  respond E GetPosition s = (inr start_pos, s1) ->
  respond E (Move new_pos) s1 = (inr tt, s2) ->
  respond E (CtxInfo (starting_info start_z end_z steps)) s2 = (inr tt, s3) ->
  outcome (run E loop s3) = inl e ->
  run E (run_z_stack start_z end_z steps) s =
  {| trace := GetPosition :: Move new_pos :: CtxInfo (starting_info start_z end_z steps)
              :: trace (run E loop s3);
     outcome := inl e;
     final := final (run E loop s3) |}.
Proof.
  intros new_pos loop Hstep Hread Hstart Hinfo Hloop.
  unfold run_z_stack. rewrite Hstep.
  step Hread. unfold Dict.copy. fold new_pos. step Hstart. step Hinfo.
  fold loop. rewrite run_bind. unfold then_run. rewrite Hloop. reflexivity.
Qed.


End ZStackMore.

(** A camera that fails on the first capture of a stack from Z = 50: the
    stage is left at Z = 50, not at the saved Z = 0. *)
Lemma z_stack_failure_in_loop_skips_restore_witness :
  run (Faulty.env Faulty.is_grab) (run_z_stack 50 90 5) Ideal.origin =
  {| trace := [GetPosition;
               Move [("x", 0); ("y", 0); ("z", 50)];
               CtxInfo "Starting Z-stack acquisition from Z=50 to Z=90 with 5 steps";
               Move [("x", 0); ("y", 0); ("z", 50)];
               GetPosition;
               CtxInfo "Capturing image 1/5 at Z=50";
               GrabImage];
     outcome := inl Faulty.failure;
     final := [("x", 0); ("y", 0); ("z", 50)] |}.
Proof.
  pose (at50 := [("x", 0); ("y", 0); ("z", 50)] : Position).
  apply (@z_stack_failure_in_loop_skips_restore (Faulty.env Faulty.is_grab) 50 90 5
           Ideal.origin Ideal.origin at50 at50 Ideal.origin
           (NFloat (S754_finite false 5629499534213120 (-49))) Faulty.failure
           eq_refl eq_refl eq_refl eq_refl eq_refl).
Defined.


(* ================================================================= *)
(** ** Properties of [autofocus] and [capture_image] *)

Ltac tool_step H :=
  cbn [Imaging.bind Imaging.call Imaging.lift Imaging.run];
  rewrite H;
  cbn [Imaging.bind Imaging.call Imaging.lift Imaging.run].

Ltac tool_cases :=
  cbn [Imaging.bind Imaging.call Imaging.lift Imaging.run Imaging.after_call
       Imaging.trace Imaging.outcome Imaging.final];
  match goal with
  | |- context [Imaging.respond ?E ?o ?s] =>
      let e := fresh "e" in
      let a := fresh "a" in
      let s' := fresh "s" in
      destruct (Imaging.respond E o s) as [[e|a] s'] eqn:?
  end;
  cbn [Imaging.bind Imaging.call Imaging.lift Imaging.run Imaging.after_call
       Imaging.trace Imaging.outcome Imaging.final] in *.

Section Autofocus.

Variable E : Imaging.Env.

(** X15.  When the device answers, [autofocus] reads the position, logs,
    runs the routine, reads the position again, and reports both Z values,
    the second minus the first, and [str] of what the routine returned. *)
Theorem autofocus_reports_z_change
    (s s1 s2 s3 s4 : Imaging.state E) (before after : Position)
    (before_z after_z : Z) (result : PyVal) :
  Imaging.respond E (Imaging.Basic GetPosition) s = (inr before, s1) ->
  Dict.get "z" before = Some before_z ->
  Imaging.respond E (Imaging.Basic (CtxInfo "Running autofocus routine...")) s1
    = (inr tt, s2) ->
  Imaging.respond E Imaging.Autofocus s2 = (inr result, s3) ->
  Imaging.respond E (Imaging.Basic GetPosition) s3 = (inr after, s4) ->
  Dict.get "z" after = Some after_z ->
  Imaging.run E Imaging.autofocus s =
  {| Imaging.trace := [Imaging.Basic GetPosition;
                       Imaging.Basic (CtxInfo "Running autofocus routine...");
                       Imaging.Autofocus;
                       Imaging.Basic GetPosition];
     Imaging.outcome := inr (lines [
       "";
       "    Autofocus completed!";
       "    ";
       "    Z position before: " ++ str_of_int before_z;
       "    Z position after: " ++ str_of_int after_z;
       "    Z change: " ++ str_of_int (after_z - before_z);
       "    ";
       "    Autofocus result details:";
       "    " ++ py_str result;
       "    "]);
     Imaging.final := s4 |}.
Proof.
  intros Hread Hbefore Hinfo Hfocus Hread2 Hafter. unfold Imaging.autofocus.
  tool_step Hread. unfold Dict.getitem. tool_step Hbefore. tool_step Hinfo.
  tool_step Hfocus. tool_step Hread2. tool_step Hafter. reflexivity.
Qed.

(** X16.  The Z before is taken first: on a position without "z",
    [autofocus] raises [KeyError] and the routine is never started. *)
Theorem autofocus_without_z_does_not_focus
    (s s1 : Imaging.state E) (before : Position) :
  Imaging.respond E (Imaging.Basic GetPosition) s = (inr before, s1) ->
  Dict.get "z" before = None ->
  Imaging.run E Imaging.autofocus s =
  {| Imaging.trace := [Imaging.Basic GetPosition];
     Imaging.outcome := inl (KeyError "z");
     Imaging.final := s1 |}.
Proof.
  intros Hread Hbefore. unfold Imaging.autofocus.
  tool_step Hread. unfold Dict.getitem. tool_step Hbefore. reflexivity.
Qed.

(** X17.  A routine that has run but left a position without "z" is
    reported as a [KeyError]: the focus has changed, the report is lost. *)
Theorem autofocus_without_z_afterwards_loses_report
    (s s1 s2 s3 s4 : Imaging.state E) (before after : Position)
    (before_z : Z) (result : PyVal) :
  Imaging.respond E (Imaging.Basic GetPosition) s = (inr before, s1) ->
  Dict.get "z" before = Some before_z ->
  Imaging.respond E (Imaging.Basic (CtxInfo "Running autofocus routine...")) s1
    = (inr tt, s2) ->
  Imaging.respond E Imaging.Autofocus s2 = (inr result, s3) ->
  Imaging.respond E (Imaging.Basic GetPosition) s3 = (inr after, s4) ->
  Dict.get "z" after = None ->
  Imaging.run E Imaging.autofocus s =
  {| Imaging.trace := [Imaging.Basic GetPosition;
                       Imaging.Basic (CtxInfo "Running autofocus routine...");
                       Imaging.Autofocus;
                       Imaging.Basic GetPosition];
     Imaging.outcome := inl (KeyError "z");
     Imaging.final := s4 |}.
Proof.
  intros Hread Hbefore Hinfo Hfocus Hread2 Hafter. unfold Imaging.autofocus.
  tool_step Hread. unfold Dict.getitem. tool_step Hbefore. tool_step Hinfo.
  tool_step Hfocus. tool_step Hread2. tool_step Hafter. reflexivity.
Qed.

(** X18.  Neither [autofocus] nor [capture_image] sends a move of its own,
    in any environment and however the run ends. *)
Theorem imaging_tools_send_no_move (s : Imaging.state E) (high_quality : bool) :
  forallb (fun o => negb (Imaging.is_motion o))
          (Imaging.trace (Imaging.run E Imaging.autofocus s)) = true
  /\ forallb (fun o => negb (Imaging.is_motion o))
             (Imaging.trace (Imaging.run E (Imaging.capture_image high_quality) s)) = true.
Proof.
  split.
  - unfold Imaging.autofocus.
    tool_cases; [reflexivity|].
    match goal with
    | |- context [Dict.getitem "z" ?p] => destruct (Dict.getitem "z" p) as [e|before_z]
    end;
      cbn [Imaging.bind Imaging.lift Imaging.run Imaging.trace]; [reflexivity|].
    tool_cases; [reflexivity|].
    tool_cases; [reflexivity|].
    tool_cases; [reflexivity|].
    match goal with
    | |- context [Dict.getitem "z" ?p] => destruct (Dict.getitem "z" p) as [e|after_z]
    end; reflexivity.
  - unfold Imaging.capture_image. destruct high_quality.
    + tool_cases; [reflexivity|].
      tool_cases; [reflexivity|].
      tool_cases; reflexivity.
    + tool_cases; [reflexivity|].
      tool_cases; [reflexivity|].
      tool_cases; reflexivity.
Qed.

(** X19.  The quality flag selects one capture path and never the other:
    no run of [capture_image] asks the camera for more than one image, a
    high-quality run never grabs a preview and a preview run never takes a
    still.  A run that returns has made the log call, the one capture and
    the PNG encoding of the image captured, in that order, and returns the
    encoder's bytes under format "png". *)
Theorem capture_image_takes_one_path (s : Imaging.state E) (high_quality : bool) :
  let r := Imaging.run E (Imaging.capture_image high_quality) s in
  let path := if high_quality then Imaging.CaptureImage else Imaging.Basic GrabImage in
  let note := if high_quality then "Capturing high-quality image..."
              else "Grabbing quick preview image..." in
  (Imaging.captures (Imaging.trace r) = (0%nat, 0%nat)
   \/ Imaging.captures (Imaging.trace r)
      = if high_quality then (1%nat, 0%nat) else (0%nat, 1%nat))
  /\ forall image : Imaging.Image,
       Imaging.outcome r = inr image ->
       exists (pil_image : PILImage) (s1 s2 s3 : Imaging.state E),
         Imaging.trace r = [Imaging.Basic (CtxInfo note); path; Imaging.SavePng pil_image]
         /\ (if high_quality then Imaging.respond E Imaging.CaptureImage s1
             else Imaging.respond E (Imaging.Basic GrabImage) s1) = (inr pil_image, s2)
         /\ Imaging.respond E (Imaging.SavePng pil_image) s2 = (inr (Imaging.data image), s3)
         /\ Imaging.format image = "png".
Proof.
  unfold Imaging.capture_image. destruct high_quality; cbn zeta.
  - tool_cases; [split; [auto|discriminate]|].
    tool_cases; [split; [auto|discriminate]|].
    tool_cases; (split; [auto|]); [discriminate|].
    intros image Himage. injection Himage as <-.
    do 4 eexists. repeat split; eassumption.
  - tool_cases; [split; [auto|discriminate]|].
    tool_cases; [split; [auto|discriminate]|].
    tool_cases; (split; [auto|]); [discriminate|].
    intros image Himage. injection Himage as <-.
    do 4 eexists. repeat split; eassumption.
Qed.

End Autofocus.

(** Focus found at Z = 120 from Z = 0. *)
Lemma autofocus_reports_z_change_witness :
  Imaging.run (IdealImaging.env IdealImaging.in_focus) Imaging.autofocus Ideal.origin =
  {| Imaging.trace := [Imaging.Basic GetPosition;
                       Imaging.Basic (CtxInfo "Running autofocus routine...");
                       Imaging.Autofocus;
                       Imaging.Basic GetPosition];
     Imaging.outcome := inr (lines [
       "";
       "    Autofocus completed!";
       "    ";
       "    Z position before: 0";
       "    Z position after: 120";
       "    Z change: 120";
       "    ";
       "    Autofocus result details:";
       "    {'status': 'completed', 'sharpest_z': 120}";
       "    "]);
     Imaging.final := [("x", 0); ("y", 0); ("z", 120)] |}.
Proof.
  pose (focused := [("x", 0); ("y", 0); ("z", 120)] : Position).
  apply (@autofocus_reports_z_change (IdealImaging.env IdealImaging.in_focus)
           Ideal.origin Ideal.origin Ideal.origin focused focused
           Ideal.origin focused 0 120 IdealImaging.focus_report
           eq_refl eq_refl eq_refl eq_refl eq_refl eq_refl).
Defined.

(** A stage that reports x only. *)
Lemma autofocus_without_z_does_not_focus_witness :
  Imaging.run (IdealImaging.env IdealImaging.in_focus) Imaging.autofocus [("x", 4)] =
  {| Imaging.trace := [Imaging.Basic GetPosition];
     Imaging.outcome := inl (KeyError "z");
     Imaging.final := [("x", 4)] |}.
Proof.
  apply (@autofocus_without_z_does_not_focus (IdealImaging.env IdealImaging.in_focus)
           [("x", 4)] [("x", 4)] [("x", 4)] eq_refl eq_refl).
Defined.

(** A routine after which the stage reports no Z. *)
Lemma autofocus_without_z_afterwards_loses_report_witness :
  Imaging.run (IdealImaging.env IdealImaging.z_lost) Imaging.autofocus Ideal.origin =
  {| Imaging.trace := [Imaging.Basic GetPosition;
                       Imaging.Basic (CtxInfo "Running autofocus routine...");
                       Imaging.Autofocus;
                       Imaging.Basic GetPosition];
     Imaging.outcome := inl (KeyError "z");
     Imaging.final := [("x", 0); ("y", 0)] |}.
Proof.
  pose (lost := [("x", 0); ("y", 0)] : Position).
  apply (@autofocus_without_z_afterwards_loses_report (IdealImaging.env IdealImaging.z_lost)
           Ideal.origin Ideal.origin Ideal.origin lost lost
           Ideal.origin lost 0 IdealImaging.focus_report
           eq_refl eq_refl eq_refl eq_refl eq_refl eq_refl).
Defined.

(* ================================================================= *)
(** ** Exact float arithmetic on integers of at most 53 bits *)

Lemma digits2_pos_log2 (p : positive) :
  Z.pos (digits2_pos p) = Z.log2 (Z.pos p) + 1.
Proof.
  induction p as [p IH|p IH|]; cbn [digits2_pos].
  - rewrite Pos2Z.inj_succ, IH, Pos2Z.inj_xI, Z.log2_succ_double by lia. lia.
  - rewrite Pos2Z.inj_succ, IH, Pos2Z.inj_xO, Z.log2_double by lia. lia.
  - reflexivity.
Qed.

Lemma Zdigits2_log2 (m : Z) : 0 < m -> Zdigits2 m = Z.log2 m + 1.
Proof.
  destruct m as [|p|p]; try lia. intros _. cbn [Zdigits2]. apply digits2_pos_log2.
Qed.

Lemma iter_pos_nat {A} (f : A -> A) (p : positive) :
  forall x : A, iter_pos f p x = Nat.iter (Pos.to_nat p) f x.
Proof.
  induction p as [p IH|p IH|]; intros x; cbn [iter_pos].
  - rewrite !IH, Pos2Nat.inj_xI.
    replace (S (2 * Pos.to_nat p)) with (S (Pos.to_nat p + Pos.to_nat p)) by lia.
    now rewrite Nat.iter_succ_r, Nat.iter_add.
  - rewrite !IH, Pos2Nat.inj_xO.
    replace (2 * Pos.to_nat p)%nat with (Pos.to_nat p + Pos.to_nat p)%nat by lia.
    now rewrite Nat.iter_add.
  - reflexivity.
Qed.

Lemma shr_1_even (m : Z) :
  0 < m -> shr_1 (Build_shr_record (2 * m) false false) = Build_shr_record m false false.
Proof. destruct m as [|p|p]; try lia. reflexivity. Qed.

Lemma shr_1_iter_exact (j : nat) :
  forall m : Z,
    0 < m ->
    Nat.iter j shr_1 (Build_shr_record (m * 2 ^ Z.of_nat j) false false)
    = Build_shr_record m false false.
Proof.
  induction j as [|j IH]; intros m Hm.
  - cbn [Nat.iter Z.of_nat]. rewrite Z.pow_0_r, Z.mul_1_r. reflexivity.
  - rewrite Nat.iter_succ_r.
    replace (m * 2 ^ Z.of_nat (S j)) with (2 * (m * 2 ^ Z.of_nat j))
      by (rewrite Nat2Z.inj_succ, Z.pow_succ_r by lia; ring).
    rewrite shr_1_even by (apply Z.mul_pos_pos; [lia|apply Z.pow_pos_nonneg; lia]).
    now apply IH.
Qed.

Lemma shr_exact (m e n : Z) :
  0 < m -> 0 <= n ->
  shr (Build_shr_record (m * 2 ^ n) false false) e n
  = (Build_shr_record m false false, e + n).
Proof.
  intros Hm Hn. destruct n as [|p|p]; try lia.
  - cbn [shr]. rewrite Z.pow_0_r, Z.mul_1_r, Z.add_0_r. reflexivity.
  - cbn [shr]. rewrite iter_pos_nat.
    rewrite <- (positive_nat_Z p) at 1. now rewrite shr_1_iter_exact.
Qed.

Lemma bits_pos (p : Z) : 0 < p -> 1 <= bits p.
Proof. intros. unfold bits. pose proof (Z.log2_nonneg (Z.abs p)). lia. Qed.

Lemma bits_le_53 (p : Z) : 0 < p -> p < 2 ^ 53 -> bits p <= 53.
Proof.
  intros Hp Hlt. unfold bits. rewrite Z.abs_eq by lia.
  apply Z.log2_lt_pow2 in Hlt; lia.
Qed.

Lemma bits_shift (p k : Z) : 0 < p -> 0 <= k -> Zdigits2 (p * 2 ^ k) = bits p + k.
Proof.
  intros Hp Hk. rewrite Zdigits2_log2.
  - rewrite Z.log2_mul_pow2 by lia. unfold bits. rewrite Z.abs_eq by lia. lia.
  - apply Z.mul_pos_pos; [lia|apply Z.pow_pos_nonneg; lia].
Qed.

Lemma fexp_small (d : Z) :
  -1021 <= d -> fexp Float.prec Float.emax d = d - 53.
Proof. intros H. unfold fexp, emin, Float.prec, Float.emax. lia. Qed.

Lemma round_exact (s : bool) (p k : Z) :
  0 < p -> p < 2 ^ 53 -> 0 <= k -> 53 <= bits p + k ->
  binary_round_aux Float.prec Float.emax s (p * 2 ^ k) (- k) loc_Exact
  = S754_finite s (Z.to_pos (p * 2 ^ (53 - bits p))) (bits p - 53).
Proof.
  intros Hp Hlt Hk Hfull.
  pose proof (bits_pos Hp) as Hb1. pose proof (bits_le_53 Hp Hlt) as Hb2.
  assert (Hm : 0 < p * 2 ^ (53 - bits p))
    by (apply Z.mul_pos_pos; [lia|apply Z.pow_pos_nonneg; lia]).
  unfold binary_round_aux, shr_fexp.
  rewrite (bits_shift Hp Hk), fexp_small by lia.
  cbn [shr_record_of_loc].
  replace (p * 2 ^ k) with (p * 2 ^ (53 - bits p) * 2 ^ (bits p + k + - k - 53 - - k))
    by (rewrite <- Z.mul_assoc, <- Z.pow_add_r by lia; do 2 f_equal; lia).
  rewrite (shr_exact _ Hm) by lia.
  cbn [shr_m shr_r shr_s loc_of_shr_record round_nearest_even].
  rewrite (@bits_shift p (53 - bits p)) by lia.
  rewrite fexp_small by lia.
  replace (bits p + (53 - bits p) + (- k + (bits p + k + - k - 53 - - k)) - 53
           - (- k + (bits p + k + - k - 53 - - k))) with 0 by lia.
  cbn [shr shr_m].
  destruct (p * 2 ^ (53 - bits p)) as [|m|m] eqn:Hcanon; try lia.
  replace (- k + (bits p + k + - k - 53 - - k)) with (bits p - 53) by lia.
  destruct (Z.leb_spec (bits p - 53) (Float.emax - Float.prec)) as [_|Hbad];
    [reflexivity|unfold Float.emax, Float.prec in Hbad; lia].
Qed.

Lemma shl_align_spec (m : positive) (ex ex' : Z) :
  shl_align m ex ex' = (Z.to_pos (Z.pos m * 2 ^ (ex - Z.min ex ex')), Z.min ex ex').
Proof.
  unfold shl_align. destruct (ex' - ex) as [|d|d] eqn:Hd.
  - rewrite Z.min_l by lia. rewrite Z.sub_diag, Z.pow_0_r, Z.mul_1_r. reflexivity.
  - rewrite Z.min_l by lia. rewrite Z.sub_diag, Z.pow_0_r, Z.mul_1_r. reflexivity.
  - rewrite Z.min_r by lia. replace (ex - ex') with (Z.pos d) by lia.
    f_equal. change (Pos.iter xO m d) with (shift_pos d m).
    apply Pos2Z.inj. rewrite shift_pos_correct, Z.pow_pos_fold.
    rewrite Z2Pos.id; [ring|].
    apply Z.mul_pos_pos; [lia|apply Z.pow_pos_nonneg; lia].
Qed.

(** Rounding a mantissa that spells an integer of at most 53 bits gives
    that integer. *)
Lemma binary_round_int (s : bool) (mx : positive) (ex p : Z) :
  ex <= 0 -> Z.pos mx = p * 2 ^ (- ex) -> 0 < p -> p < 2 ^ 53 ->
  binary_round Float.prec Float.emax s mx ex
  = S754_finite s (Z.to_pos (p * 2 ^ (53 - bits p))) (bits p - 53).
Proof.
  intros Hex Hmx Hp Hlt.
  pose proof (bits_pos Hp) as Hb1. pose proof (bits_le_53 Hp Hlt) as Hb2.
  unfold binary_round. rewrite shl_align_spec.
  assert (Hdigits : Z.pos (digits2_pos mx) + ex = bits p).
  { change (Z.pos (digits2_pos mx)) with (Zdigits2 (Z.pos mx)).
    rewrite Hmx, bits_shift by lia. lia. }
  rewrite Hdigits, fexp_small by lia.
  set (ez := Z.min ex (bits p - 53)).
  assert (Hez : ez <= 0 /\ ez <= ex /\ ez <= bits p - 53) by (unfold ez; lia).
  assert (Hmz : Z.pos mx * 2 ^ (ex - ez) = p * 2 ^ (- ez)).
  { rewrite Hmx, <- Z.mul_assoc, <- Z.pow_add_r by lia. do 2 f_equal. lia. }
  rewrite Hmz, Z2Pos.id
    by (apply Z.mul_pos_pos; [lia|apply Z.pow_pos_nonneg; lia]).
  replace ez with (- - ez) at 2 by lia.
  apply round_exact; lia.
Qed.

Lemma canon_nonzero (n : Z) :
  n <> 0 ->
  canon n = S754_finite (n <? 0) (Z.to_pos (Z.abs n * 2 ^ (53 - bits n))) (bits n - 53).
Proof. intros Hn. unfold canon. destruct (Z.eqb_spec n 0); [contradiction|reflexivity]. Qed.

Lemma bits_abs (n : Z) : bits (Z.abs n) = bits n.
Proof. unfold bits. now rewrite Z.abs_idemp. Qed.

(** Normalising [n * 2^(-e)] at exponent [e] gives [n]. *)
Lemma binary_normalize_int (n e : Z) :
  e <= 0 -> Z.abs n < 2 ^ 53 ->
  binary_normalize Float.prec Float.emax (n * 2 ^ (- e)) e false = canon n.
Proof.
  intros He Hlt.
  assert (Hpow : 0 < 2 ^ (- e)) by (apply Z.pow_pos_nonneg; lia).
  destruct (Z.eq_dec n 0) as [->|Hn]; [reflexivity|].
  rewrite (canon_nonzero Hn). unfold binary_normalize.
  destruct (n * 2 ^ (- e)) as [|m|m] eqn:Hm.
  - nia.
  - assert (0 < n) by nia.
    rewrite (@binary_round_int false m e (Z.abs n)); try lia.
    rewrite bits_abs. destruct (Z.ltb_spec n 0); [lia|reflexivity].
  - assert (n < 0) by nia.
    rewrite (@binary_round_int true m e (Z.abs n)); try lia.
    rewrite bits_abs. destruct (Z.ltb_spec n 0); [reflexivity|lia].
Qed.

Lemma of_int_exact (n : Z) : Z.abs n < 2 ^ 53 -> Float.of_int n = inr (canon n).
Proof.
  intros Hlt. unfold Float.of_int.
  pose proof (@binary_normalize_int n 0 (Z.le_refl 0) Hlt) as Hnorm.
  cbn [Z.opp] in Hnorm. rewrite Z.pow_0_r, Z.mul_1_r in Hnorm. rewrite Hnorm.
  unfold canon. destruct (n =? 0); reflexivity.
Qed.

Lemma to_int_exact (f : Float.t) (n : Z) : represents f n -> Float.to_int f = inr n.
Proof.
  intros [Hlt [->|[-> ->]]]; [|reflexivity].
  destruct (Z.eq_dec n 0) as [->|Hn]; [reflexivity|].
  rewrite (canon_nonzero Hn). unfold Float.to_int.
  assert (Hp : 0 < Z.abs n) by lia.
  pose proof (bits_pos Hp) as Hb1. pose proof (bits_le_53 Hp Hlt) as Hb2.
  rewrite bits_abs in Hb1, Hb2.
  assert (Hpow : 0 < 2 ^ (53 - bits n)) by (apply Z.pow_pos_nonneg; lia).
  rewrite Z2Pos.id by (apply Z.mul_pos_pos; lia).
  assert (Hmag : (if 0 <=? bits n - 53
                  then Z.abs n * 2 ^ (53 - bits n) * 2 ^ (bits n - 53)
                  else Z.abs n * 2 ^ (53 - bits n) / 2 ^ (- (bits n - 53))) = Z.abs n).
  { destruct (Z.leb_spec 0 (bits n - 53)).
    - replace (bits n) with 53 by lia. cbn. lia.
    - replace (- (bits n - 53)) with (53 - bits n) by lia. apply Z.div_mul. lia. }
  rewrite Hmag. f_equal. destruct (Z.ltb_spec n 0); lia.
Qed.

Lemma represents_zero (s : bool) : represents (S754_zero s) 0.
Proof.
  split; [cbn; lia|]. destruct s; [right|left]; auto.
Qed.

Lemma represents_canon (n : Z) : Z.abs n < 2 ^ 53 -> represents (canon n) n.
Proof. intros H. split; auto. Qed.

Lemma represents_cases (f : Float.t) (n : Z) :
  represents f n ->
  (n = 0 /\ exists s, f = S754_zero s)
  \/ (n <> 0 /\ Z.abs n < 2 ^ 53
      /\ f = S754_finite (n <? 0) (Z.to_pos (Z.abs n * 2 ^ (53 - bits n))) (bits n - 53)).
Proof.
  intros [Hlt [->|[-> ->]]].
  - destruct (Z.eq_dec n 0) as [->|Hn].
    + left. split; [reflexivity|]. exists false. reflexivity.
    + right. repeat split; auto. now apply canon_nonzero.
  - left. split; [reflexivity|]. exists true. reflexivity.
Qed.

Lemma mantissa_pos (n : Z) :
  n <> 0 -> Z.abs n < 2 ^ 53 -> 0 < Z.abs n * 2 ^ (53 - bits n).
Proof.
  intros Hn Hlt. assert (Hp : 0 < Z.abs n) by lia.
  pose proof (bits_le_53 Hp Hlt) as Hb. rewrite bits_abs in Hb.
  apply Z.mul_pos_pos; [lia|apply Z.pow_pos_nonneg; lia].
Qed.

Lemma bits_mul_below (a b : Z) : a <> 0 -> b <> 0 -> bits a + bits b - 1 <= bits (a * b).
Proof.
  intros Ha Hb. unfold bits. rewrite Z.abs_mul.
  pose proof (Z.log2_mul_below (Z.abs a) (Z.abs b)). lia.
Qed.

Lemma bits_mul_above (a b : Z) : bits (a * b) <= bits a + bits b.
Proof.
  unfold bits. rewrite Z.abs_mul.
  pose proof (Z.log2_mul_above (Z.abs a) (Z.abs b)). lia.
Qed.

Lemma mul_exact (fa fb : Float.t) (a b : Z) :
  represents fa a -> represents fb b -> Z.abs (a * b) < 2 ^ 53 ->
  represents (Float.mul fa fb) (a * b).
Proof.
  intros Ha Hb Hlt.
  destruct (represents_cases Ha) as [[-> [sa ->]]|(Hna & Hla & ->)];
    destruct (represents_cases Hb) as [[-> [sb ->]]|(Hnb & Hlb & ->)];
    try (rewrite ?Z.mul_0_l, ?Z.mul_0_r; apply represents_zero).
  assert (Hab : a * b <> 0) by nia.
  split; [exact Hlt|]. left. rewrite (canon_nonzero Hab).
  unfold Float.mul, SFmul.
  pose proof (mantissa_pos Hna Hla) as Hma. pose proof (mantissa_pos Hnb Hlb) as Hmb.
  assert (Hpa : 0 < Z.abs a) by lia. assert (Hpb : 0 < Z.abs b) by lia.
  pose proof (bits_le_53 Hpa Hla) as Hba. pose proof (bits_le_53 Hpb Hlb) as Hbb.
  rewrite bits_abs in Hba, Hbb.
  pose proof (bits_pos Hpa) as Hba1. pose proof (bits_pos Hpb) as Hbb1.
  rewrite bits_abs in Hba1, Hbb1.
  rewrite Pos2Z.inj_mul, !Z2Pos.id by assumption.
  replace (Z.abs a * 2 ^ (53 - bits a) * (Z.abs b * 2 ^ (53 - bits b)))
    with (Z.abs (a * b) * 2 ^ (106 - bits a - bits b))
    by (rewrite Z.abs_mul;
        replace (106 - bits a - bits b) with ((53 - bits a) + (53 - bits b)) by lia;
        rewrite Z.pow_add_r by lia; ring).
  replace (bits a - 53 + (bits b - 53)) with (- (106 - bits a - bits b)) by lia.
  pose proof (bits_mul_below Hna Hnb) as Hlow.
  rewrite round_exact; rewrite ?bits_abs; try lia.
  f_equal. destruct (Z.ltb_spec a 0), (Z.ltb_spec b 0), (Z.ltb_spec (a * b) 0);
    cbn; try reflexivity; nia.
Qed.

Lemma add_exact (fa fb : Float.t) (a b : Z) :
  represents fa a -> represents fb b -> Z.abs (a + b) < 2 ^ 53 ->
  represents (Float.add fa fb) (a + b).
Proof.
  intros Ha Hb Hlt.
  destruct (represents_cases Ha) as [[-> [sa ->]]|(Hna & Hla & Hfa)];
    destruct (represents_cases Hb) as [[-> [sb ->]]|(Hnb & Hlb & Hfb)].
  - cbn [Z.add]. unfold Float.add, SFadd. destruct sa, sb; apply represents_zero.
  - cbn [Z.add]. rewrite Hfb. unfold Float.add, SFadd.
    rewrite <- (canon_nonzero Hnb). now apply represents_canon.
  - rewrite Z.add_0_r, Hfa. unfold Float.add, SFadd.
    rewrite <- (canon_nonzero Hna). now apply represents_canon.
  - rewrite Hfa, Hfb. unfold Float.add, SFadd.
    pose proof (mantissa_pos Hna Hla) as Hma. pose proof (mantissa_pos Hnb Hlb) as Hmb.
    assert (Hpa : 0 < Z.abs a) by lia. assert (Hpb : 0 < Z.abs b) by lia.
    pose proof (bits_le_53 Hpa Hla) as Hba. pose proof (bits_le_53 Hpb Hlb) as Hbb.
    rewrite bits_abs in Hba, Hbb.
    set (ez := Z.min (bits a - 53) (bits b - 53)).
    assert (Hez : ez <= 0 /\ ez <= bits a - 53 /\ ez <= bits b - 53) by (unfold ez; lia).
    rewrite !shl_align_spec. cbn [fst].
    rewrite !Z.min_r by lia.
    rewrite (Z2Pos.id _ Hma), (Z2Pos.id _ Hmb).
    assert (Hshift : forall n : Z, n <> 0 -> Z.abs n < 2 ^ 53 -> ez <= bits n - 53 ->
              bits n <= 53 ->
              cond_Zopp (n <? 0)
                (Z.pos (Z.to_pos (Z.abs n * 2 ^ (53 - bits n) * 2 ^ (bits n - 53 - ez))))
              = n * 2 ^ (- ez)).
    { intros n Hn Hln Hen Hbn.
      assert (0 < 2 ^ (53 - bits n)) by (apply Z.pow_pos_nonneg; lia).
      assert (0 < 2 ^ (bits n - 53 - ez)) by (apply Z.pow_pos_nonneg; lia).
      rewrite Z2Pos.id by (apply Z.mul_pos_pos; [apply Z.mul_pos_pos|]; lia).
      rewrite <- Z.mul_assoc, <- Z.pow_add_r by lia.
      replace (53 - bits n + (bits n - 53 - ez)) with (- ez) by lia.
      unfold cond_Zopp. destruct (Z.ltb_spec n 0).
      - rewrite Z.abs_neq by lia. ring.
      - rewrite Z.abs_eq by lia. ring. }
    rewrite (Hshift a), (Hshift b) by lia.
    rewrite <- Z.mul_add_distr_r.
    rewrite binary_normalize_int by lia.
    now apply represents_canon.
Qed.

Lemma div_eucl_div_mod (x y : Z) : Z.div_eucl x y = (x / y, x mod y).
Proof. unfold Z.div, Z.modulo. now destruct (Z.div_eucl x y). Qed.

Lemma new_location_zero (n : Z) : new_location n 0 = loc_Exact.
Proof. unfold new_location. destruct (Z.even n); reflexivity. Qed.

(** Dividing a multiple of [b] by [b]: the core computes the quotient
    moved up to 53 digits, with nothing left over. *)
Lemma div_core_exact (a b q : Z) :
  a <> 0 -> b <> 0 -> a = q * b -> Z.abs q < 2 ^ 53 ->
  let shift := 53 - bits a + bits b in
  0 <= shift /\ 53 <= bits q + shift
  /\ SFdiv_core_binary Float.prec Float.emax (Z.abs a) 0 (Z.abs b) 0
     = (Z.abs q * 2 ^ shift, - shift, loc_Exact).
Proof.
  intros Ha Hb Hq Hlt shift.
  assert (Hnq : q <> 0) by (intros ->; lia).
  assert (Hpq : 0 < Z.abs q) by lia.
  pose proof (bits_le_53 Hpq Hlt) as Hbq. rewrite bits_abs in Hbq.
  assert (Hup : bits a <= bits q + bits b) by (rewrite Hq; apply bits_mul_above).
  assert (Hlow : bits q + bits b - 1 <= bits a) by (rewrite Hq; now apply bits_mul_below).
  assert (Hbb : 1 <= bits b) by (rewrite <- bits_abs; apply bits_pos; lia).
  assert (Hbq1 : 1 <= bits q) by (rewrite <- bits_abs; apply bits_pos; lia).
  assert (Hshift : 0 <= shift) by (unfold shift; lia).
  split; [exact Hshift|]. split; [unfold shift; lia|].
  unfold SFdiv_core_binary.
  rewrite !Zdigits2_log2 by lia. fold (bits a) (bits b).
  rewrite fexp_small by lia.
  replace (Z.min (bits a + 0 - (bits b + 0) - 53) (0 - 0)) with (- shift)
    by (unfold shift; lia).
  replace (0 - 0 - - shift) with shift by lia.
  assert (Hm : match shift with
               | 0 => Z.abs a
               | Z.pos _ => Z.shiftl (Z.abs a) shift
               | Z.neg _ => 0
               end = Z.abs q * 2 ^ shift * Z.abs b).
  { assert (Habs : Z.abs a = Z.abs q * Z.abs b) by (rewrite Hq; apply Z.abs_mul).
    clearbody shift. destruct shift as [|p|p]; try lia.
    rewrite Z.shiftl_mul_pow2 by lia. rewrite Habs. ring. }
  rewrite Hm, div_eucl_div_mod, Z.div_mul, Z.mod_mul by lia.
  now rewrite new_location_zero.
Qed.

Lemma int_truediv_exact (a b q : Z) :
  b <> 0 -> a = q * b -> Z.abs q < 2 ^ 53 ->
  exists f : Float.t, Float.int_truediv a b = inr f /\ represents f q.
Proof.
  intros Hb Hq Hlt. unfold Float.int_truediv.
  destruct (Z.eqb_spec b 0) as [|_]; [contradiction|].
  destruct (Z.eqb_spec a 0) as [Ha|Ha].
  - assert (q = 0) by nia. subst q. eexists. split; [reflexivity|apply represents_zero].
  - destruct (@div_core_exact a b q Ha Hb Hq Hlt) as (Hshift & Hfull & ->).
    assert (Hnq : q <> 0) by (intros ->; lia).
    rewrite round_exact; rewrite ?bits_abs; try lia.
    cbn [Float.is_infinite]. eexists. split; [reflexivity|].
    split; [exact Hlt|]. left. rewrite (canon_nonzero Hnq). f_equal.
    destruct (Z.ltb_spec a 0), (Z.ltb_spec b 0), (Z.ltb_spec q 0); cbn; try reflexivity; nia.
Qed.

Lemma shr_1_nonneg (mrs : shr_record) : 0 <= shr_m mrs -> 0 <= shr_m (shr_1 mrs).
Proof.
  destruct mrs as [m r s]. cbn [shr_m].
  destruct m as [|[p|p|]|[p|p|]]; cbn; lia.
Qed.

Lemma shr_nonneg (mrs : shr_record) (e n : Z) :
  0 <= shr_m mrs -> 0 <= shr_m (fst (shr mrs e n)).
Proof.
  intros Hm. destruct n as [|p|p]; cbn [shr fst]; auto.
  rewrite iter_pos_nat. induction (Pos.to_nat p) as [|j IH]; cbn [Nat.iter]; auto.
  now apply shr_1_nonneg.
Qed.

Lemma shr_fexp_nonneg (m e : Z) (l : location) :
  0 <= m -> 0 <= shr_m (fst (shr_fexp Float.prec Float.emax m e l)).
Proof.
  intros Hm. unfold shr_fexp. apply shr_nonneg.
  destruct l as [|[]]; cbn; exact Hm.
Qed.

(** Rounding a non-negative mantissa never gives NaN. *)
Lemma binary_round_aux_not_nan (s : bool) (m e : Z) (l : location) :
  0 <= m -> binary_round_aux Float.prec Float.emax s m e l <> S754_nan.
Proof.
  intros Hm. unfold binary_round_aux.
  pose proof (shr_fexp_nonneg e l Hm) as H1.
  destruct (shr_fexp Float.prec Float.emax m e l) as [mrs' e']. cbn [fst] in H1.
  assert (H2 : 0 <= round_nearest_even (shr_m mrs') (loc_of_shr_record mrs')).
  { unfold round_nearest_even.
    destruct (loc_of_shr_record mrs') as [|[]]; try lia.
    destruct (Z.even (shr_m mrs')); lia. }
  pose proof (shr_fexp_nonneg e' loc_Exact H2) as H3.
  destruct (shr_fexp Float.prec Float.emax _ e' loc_Exact) as [mrs'' e'']. cbn [fst] in H3.
  destruct (shr_m mrs'') as [|p|p]; try lia; try discriminate.
  destruct (e'' <=? Float.emax - Float.prec); discriminate.
Qed.

(** A quotient of two integers is a zero or a finite double. *)
Lemma int_truediv_finite (a b : Z) (f : Float.t) :
  Float.int_truediv a b = inr f ->
  (exists s, f = S754_zero s) \/ (exists s m e, f = S754_finite s m e).
Proof.
  unfold Float.int_truediv. destruct (b =? 0); [discriminate|].
  destruct (a =? 0); [intros H; injection H as <-; eauto|].
  destruct (SFdiv_core_binary Float.prec Float.emax (Z.abs a) 0 (Z.abs b) 0)
    as [[q e] l] eqn:Hcore.
  assert (Hq : 0 <= q).
  { unfold SFdiv_core_binary in Hcore. rewrite div_eucl_div_mod in Hcore.
    injection Hcore as <- _ _.
    destruct (Z.eq_dec (Z.abs b) 0) as [->|Hb]; [now rewrite Z.div_0_r|].
    apply Z.div_pos; [|lia].
    match goal with
    | |- 0 <= match ?s with _ => _ end =>
        destruct s; [lia|apply Z.shiftl_nonneg; lia|lia]
    end. }
  pose proof (@binary_round_aux_not_nan (xorb (a <? 0) (b <? 0)) q e l Hq) as Hnan.
  destruct (binary_round_aux Float.prec Float.emax (xorb (a <? 0) (b <? 0)) q e l)
    as [s|s| |s m e'] eqn:Hround; cbn [Float.is_infinite];
    try discriminate; try contradiction;
    intros H; injection H as <-; eauto.
Qed.

(** X20.  Whatever the step size, the first Z of the schedule is
    [start_z] itself: for [|start_z| < 2^53] the conversion to a double and
    back loses nothing, and the offset of iteration 0 is a zero. *)
Theorem z_stack_first_target_is_start_z (start_z end_z steps : Z) (z_step : PyNum) :
  z_step_of start_z end_z steps = inr z_step ->
  Z.abs start_z < 2 ^ 53 ->
  target_z start_z z_step 0 = inr start_z.
Proof.
  intros Hstep Hlt. unfold z_step_of in Hstep.
  destruct (1 <? steps).
  - destruct (Float.int_truediv (end_z - start_z) (steps - 1)) as [e|f] eqn:Hdiv;
      [discriminate|].
    injection Hstep as <-.
    unfold target_z, int_mul, int_add, py_int.
    change (Float.of_int 0) with (@inr Exn Float.t (S754_zero false)).
    rewrite (@of_int_exact start_z Hlt).
    assert (Hzero : exists s, Float.mul (S754_zero false) f = S754_zero s).
    { destruct (int_truediv_finite _ _ Hdiv) as [[s ->]|(s & m & e & ->)];
        eexists; reflexivity. }
    destruct Hzero as [s ->].
    apply to_int_exact.
    replace start_z with (start_z + 0) at 2 by lia.
    apply add_exact; [now apply represents_canon|apply represents_zero|].
    now rewrite Z.add_0_r.
  - injection Hstep as <-.
    unfold target_z, int_mul, int_add, py_int. f_equal. lia.
Qed.

(** When [steps - 1] divides the range, the step size is an integer [q]
    held exactly, and so is every product and sum of the schedule. *)
Lemma even_range_targets_exact (start_z end_z steps q : Z) :
  1 < steps -> steps <= 2 ^ 53 ->
  Z.abs start_z < 2 ^ 52 -> Z.abs end_z < 2 ^ 52 ->
  end_z - start_z = q * (steps - 1) ->
  exists z_step : PyNum,
    z_step_of start_z end_z steps = inr z_step
    /\ forall i : Z, 0 <= i < steps -> target_z start_z z_step i = inr (start_z + i * q).
Proof.
  intros Hsteps Hmax Hstart Hend Hq.
  assert (Hpow : 2 ^ 53 = 2 * 2 ^ 52) by reflexivity.
  assert (Hrange : Z.abs (end_z - start_z) < 2 ^ 53) by lia.
  assert (Hqlt : Z.abs q < 2 ^ 53) by nia.
  destruct (@int_truediv_exact (end_z - start_z) (steps - 1) q) as (f & Hdiv & Hf);
    [lia|exact Hq|exact Hqlt|].
  exists (NFloat f). split.
  - unfold z_step_of. destruct (Z.ltb_spec 1 steps); [|lia]. now rewrite Hdiv.
  - intros i Hi. unfold target_z, int_mul, int_add, py_int.
    rewrite (@of_int_exact i) by lia.
    rewrite (@of_int_exact start_z) by lia.
    apply to_int_exact. apply add_exact.
    + apply represents_canon. lia.
    + apply mul_exact; [apply represents_canon; lia|exact Hf|nia].
    + nia.
Qed.

(** X21.  When [steps - 1] divides [end_z - start_z], with quotient [q],
    and the positions are below 2^52 in size, no rounding occurs: the Z of
    iteration [i] is [start_z + i * q], and the last one is [end_z]. *)
Theorem z_stack_even_range_is_exact (start_z end_z steps q : Z) :
  1 < steps -> steps <= 2 ^ 53 ->
  Z.abs start_z < 2 ^ 52 -> Z.abs end_z < 2 ^ 52 ->
  end_z - start_z = q * (steps - 1) ->
  exists z_step : PyNum,
    z_step_of start_z end_z steps = inr z_step
    /\ (forall i : Z, 0 <= i < steps -> target_z start_z z_step i = inr (start_z + i * q))
    /\ target_z start_z z_step (steps - 1) = inr end_z.
Proof.
  intros Hsteps Hmax Hstart Hend Hq.
  destruct (@even_range_targets_exact start_z end_z steps q Hsteps Hmax Hstart Hend Hq)
    as (z_step & Hstep & Hall).
  exists z_step. repeat split; auto.
  rewrite Hall by lia. f_equal. lia.
Qed.

Lemma py_range_bounds (n i : Z) : In i (py_range n) -> 0 <= i < n.
Proof.
  unfold py_range. rewrite in_map_iff. intros (k & <- & Hk).
  apply in_seq in Hk. lia.
Qed.

Lemma targets_of_schedule (start_z : Z) (z_step : PyNum) (schedule : Z -> Z) (idxs : list Z) :
  (forall i, In i idxs -> target_z start_z z_step i = inr (schedule i)) ->
  forall targets : list Z,
    Forall2 (fun i target => target_z start_z z_step i = inr target) idxs targets ->
    targets = map schedule idxs.
Proof.
  intros Hall targets Htargets.
  induction Htargets as [|i target idxs targets Hi _ IH]; [reflexivity|].
  cbn [map]. f_equal.
  - rewrite (Hall i (or_introl eq_refl)) in Hi. now injection Hi.
  - apply IH. intros j Hj. apply Hall. now right.
Qed.

(** X22.  A completed stack over an evenly divided range has moved the
    stage to [start_z], then to [start_z], [start_z + q], ..., [end_z] in
    this order with the other axes as saved, and back to the saved
    position. *)
Theorem z_stack_even_range_moves
    (E : Env) (start_z end_z steps q : Z) (s s1 : state E)
    (start_pos : Position) (text : string) :
  1 < steps -> steps <= 2 ^ 53 ->
  Z.abs start_z < 2 ^ 52 -> Z.abs end_z < 2 ^ 52 ->
  end_z - start_z = q * (steps - 1) ->
  respond E GetPosition s = (inr start_pos, s1) ->
  outcome (run E (run_z_stack start_z end_z steps) s) = inr text ->
  moves (trace (run E (run_z_stack start_z end_z steps) s))
  = (Dict.set "z" start_z start_pos
       :: map (fun i => Dict.set "z" (start_z + i * q) start_pos) (py_range steps)
       ++ [start_pos])%list.
Proof.
  intros Hsteps Hmax Hstart Hend Hq Hread Hdone.
  destruct (@even_range_targets_exact start_z end_z steps q Hsteps Hmax Hstart Hend Hq)
    as (z_step & Hstep & Hall).
  destruct (@run_z_stack_complete E start_z end_z steps s s1 start_pos text Hread Hdone)
    as (z_step' & targets & _ & Hstep' & Htargets & Hmoves & _).
  rewrite Hstep in Hstep'. injection Hstep' as <-.
  rewrite Hmoves.
  rewrite (@targets_of_schedule start_z z_step (fun i => start_z + i * q)
             (py_range steps)
             (fun i Hi => Hall i (@py_range_bounds steps i Hi)) targets Htargets).
  now rewrite map_map.
Qed.

(** A stack from Z = 5, whatever its range. *)
Lemma z_stack_first_target_is_start_z_witness :
  exists z_step : PyNum,
    z_step_of 5 1000 20 = inr z_step /\ target_z 5 z_step 0 = inr 5.
Proof.
  eexists. split; [vm_compute; reflexivity|].
  eapply (@z_stack_first_target_is_start_z 5 1000 20); reflexivity.
Defined.

(** The spec's example: 90 divides into 9 steps of 10. *)
Lemma z_stack_even_range_is_exact_witness :
  exists z_step : PyNum,
    z_step_of 0 90 10 = inr z_step
    /\ (forall i : Z, 0 <= i < 10 -> target_z 0 z_step i = inr (0 + i * 10))
    /\ target_z 0 z_step (10 - 1) = inr 90.
Proof.
  apply (@z_stack_even_range_is_exact 0 90 10 10); lia.
Defined.

(** The same stack run on the ideal stage. *)
Lemma z_stack_even_range_moves_witness :
  moves (trace (run Ideal.env (run_z_stack 0 90 10) Ideal.origin))
  = (Dict.set "z" 0 Ideal.origin
       :: map (fun i => Dict.set "z" (0 + i * 10) Ideal.origin) (py_range 10)
       ++ [Ideal.origin])%list.
Proof.
  eapply (@z_stack_even_range_moves Ideal.env 0 90 10 10 Ideal.origin Ideal.origin
            Ideal.origin); try lia.
  - reflexivity.
  - vm_compute. reflexivity.
Defined.
